(** * On-device monitoring probes of the MicroPython WebREPL client

    A shallow embedding of the four probe scripts under
    [src/features/monitoring/assets/]:

    - [gpio_monitor.py]   ([get_gpio_states], [send_gpio_states])
    - [i2c_scanner.py]    ([scan_i2c_devices], [send_i2c_scan])
    - [wifi_scanner.py]   ([scan_wifi_networks], [send_wifi_scan])
    - [system_monitor.py] ([get_system_metrics], [send_metrics])

    Every script talks to the board through the MicroPython modules
    [machine], [network], [gc] and [time].  Those calls may change the
    device and may raise, so the scripts are embedded in a state-and-exception
    monad over an abstract [world]; the modules are interfaces (type classes)
    whose fields are arbitrary functions of the world, so that a statement
    quantified over the interface covers every behaviour of the hardware. *)

From Stdlib Require Import ZArith List Bool Lia.
From Stdlib.Strings Require Import String Ascii Byte.
From Stdlib Require Decimal DecimalString DecimalZ DecimalPos.
From Stdlib Require Hexadecimal HexadecimalString HexadecimalN.
Import ListNotations.

#[local] Set Warnings "-register-all".

Local Open Scope string_scope.
Local Open Scope Z_scope.

(* ================================================================== *)
(** * Exceptions and the probe monad *)
(* ================================================================== *)

(** A fault raised by a driver.  Every fault modelled here is an instance of
    Python's [Exception] (OSError, ValueError, UnicodeError, ...), which is
    what both [except:] and [except Exception as e:] catch; asynchronous
    [BaseException]s such as KeyboardInterrupt are not modelled.  The only
    thing the scripts do with a caught exception is [str(e)]. *)
Inductive exn : Type :=
| Exception (msg : string).

Definition str (e : exn) : string :=
  match e with Exception msg => msg end.

(** What a Python call does: return a value or raise. *)
Inductive outcome (A : Type) : Type :=
| Ret (a : A)
| Raise (e : exn).
Arguments Ret {A} a.
Arguments Raise {A} e.

(** A computation over a state [S]: the state after the call is kept on both
    paths (a driver call that raises may still have touched the device). *)
Definition M (S A : Type) : Type := S -> outcome A * S.

Definition ret {S A : Type} (a : A) : M S A :=
  fun s => (Ret a, s).

Definition raise {S A : Type} (e : exn) : M S A :=
  fun s => (Raise e, s).

Definition bind {S A B : Type} (m : M S A) (k : A -> M S B) : M S B :=
  fun s =>
    match m s with
    | (Ret a, s') => k a s'
    | (Raise e, s') => (Raise e, s')
    end.

(** [try: m  except Exception as e: h e] *)
Definition try_except {S A : Type} (m : M S A) (h : exn -> M S A) : M S A :=
  fun s =>
    match m s with
    | (Ret a, s') => (Ret a, s')
    | (Raise e, s') => h e s'
    end.

(** A pure library call that may raise (it does not touch the state). *)
Definition pure_call {S A : Type} (o : outcome A) : M S A :=
  fun s => (o, s).

Declare Scope probe_scope.
Delimit Scope probe_scope with probe.
Notation "x <- m ;; k" := (bind m (fun x => k))
  (at level 61, m at next level, right associativity) : probe_scope.
Notation "m ;;; k" := (bind m (fun _ => k))
  (at level 61, right associativity) : probe_scope.
Local Open Scope probe_scope.

(* ================================================================== *)
(** * Python values and [json.dumps] *)
(* ================================================================== *)

(** The values the probes build and hand to [json.dumps]: ints, strs, lists
    and dicts with str keys.  A [str] is kept as its UTF-8 bytes, as
    MicroPython stores it.  A dict is an association list with unique keys
    (see [dict_set]), printed in insertion order; no statement below depends
    on the order of the keys. *)
Inductive value : Type :=
| VInt (n : Z)
| VStr (s : string)
| VList (items : list value)
| VDict (entries : list (string * value)).

Definition dict : Type := list (string * value).

(** [d.get(key)] *)
Fixpoint dict_get (d : dict) (key : string) : option value :=
  match d with
  | [] => None
  | (k, v) :: rest => if String.eqb k key then Some v else dict_get rest key
  end.

(** [d[key] = v]: replaces the value of an existing key in place, appends a
    new key at the end. *)
Fixpoint dict_set (d : dict) (key : string) (v : value) : dict :=
  match d with
  | [] => [(key, v)]
  | (k, x) :: rest =>
      if String.eqb k key then (k, v) :: rest else (k, x) :: dict_set rest key v
  end.

Definition dict_keys (d : dict) : list string := map fst d.

(** ['{}'.format(n)] / [str(n)] of an int: decimal, ['-'] for negatives. *)
Definition str_of_int (n : Z) : string :=
  DecimalString.NilZero.string_of_int (Z.to_int n).

(** [sep.join(parts)] *)
Fixpoint join (sep : string) (parts : list string) : string :=
  match parts with
  | [] => EmptyString
  | [p] => p
  | p :: rest => p ++ sep ++ join sep rest
  end.

Definition newline : ascii := "010"%char.
Definition dquote : ascii := "034"%char.
Definition backslash : ascii := "092"%char.

(** One character of a JSON string literal, as MicroPython's printer emits
    it: the quote and the backslash are escaped, bytes from 32 up are copied
    (UTF-8 passes through), newline, carriage return and tab get their short
    escapes and any other control character becomes [\u00XX]. *)
Definition hex_digit (n : N) : ascii :=
  match n with
  | 0%N => "0" | 1%N => "1" | 2%N => "2" | 3%N => "3"
  | 4%N => "4" | 5%N => "5" | 6%N => "6" | 7%N => "7"
  | 8%N => "8" | 9%N => "9" | 10%N => "a" | 11%N => "b"
  | 12%N => "c" | 13%N => "d" | 14%N => "e" | _ => "f"
  end%char.

Definition json_escape_char (c : ascii) : string :=
  let n := N_of_ascii c in
  if (Ascii.eqb c dquote || Ascii.eqb c backslash)%bool
  then String backslash (String c EmptyString)
  else if (32 <=? n)%N then String c EmptyString
  else if Ascii.eqb c newline then String backslash "n"
  else if Ascii.eqb c "013" then String backslash "r"
  else if Ascii.eqb c "009" then String backslash "t"
  else String backslash "u00"
         ++ String (hex_digit (n / 16))
              (String (hex_digit (n mod 16)) EmptyString).

Fixpoint json_escape (s : string) : string :=
  match s with
  | EmptyString => EmptyString
  | String c rest => json_escape_char c ++ json_escape rest
  end.

Definition json_quote (s : string) : string :=
  String dquote (json_escape s ++ String dquote EmptyString).

(** [json.dumps(v)] with the default separators [", "] and [": "]. *)
Fixpoint json_dumps (v : value) : string :=
  match v with
  | VInt n => str_of_int n
  | VStr s => json_quote s
  | VList items => "[" ++ join ", " (map json_dumps items) ++ "]"
  | VDict entries =>
      "{" ++ join ", "
               (map (fun kv => match kv with
                               | (k, x) => json_quote k ++ ": " ++ json_dumps x
                               end) entries)
          ++ "}"
  end.

(** The record every probe returns when it could not run. *)
Definition error_record (e : exn) : value :=
  VDict [("error", VStr (str e))].

(* ================================================================== *)
(** * The console *)
(* ================================================================== *)

(** The device together with the text written to the console so far. *)
Record console (world : Type) : Type := mkConsole {
  dev : world;
  stdout : string
}.
Arguments mkConsole {world} dev stdout.
Arguments dev {world} c.
Arguments stdout {world} c.

(** [print(s)]: writes [s] and a line break. *)
Definition print {world : Type} (s : string) : M (console world) unit :=
  fun c => (Ret tt, mkConsole (dev c) (stdout c ++ s ++ String newline EmptyString)).

(** A probe body, which only touches the device, run from a script. *)
Definition on_device {world A : Type} (m : M world A) : M (console world) A :=
  fun c => match m (dev c) with (r, w) => (r, mkConsole w (stdout c)) end.

(* ================================================================== *)
(** * The MicroPython modules the probes call *)
(* ================================================================== *)

(** Objects handed out by the drivers. *)
Inductive pin_mode : Type := Pin_IN | Pin_OUT.
Record pin_obj : Type := mkPin { pin_id : Z }.
Record i2c_obj : Type := mkI2C { i2c_bus : Z }.
Inductive wlan_interface : Type := STA_IF | AP_IF.
Record wlan_obj : Type := mkWLAN { wlan_if : wlan_interface }.

(** One tuple of [wlan.scan()]:
    [(ssid, bssid, channel, RSSI, security, hidden)]; the first two are
    [bytes] objects. *)
Record scan_entry : Type := mkScan {
  net_ssid : list byte;      (* net[0] *)
  net_bssid : list byte;     (* net[1] *)
  net_channel : Z;           (* net[2] *)
  net_rssi : Z;              (* net[3] *)
  net_security : Z;          (* net[4] *)
  net_hidden : Z             (* net[5], unused *)
}.

(** [machine.Pin]: the constructor [Pin(id)] / [Pin(id, mode)] and
    [pin.value()]. *)
Class MachinePin (world : Type) : Type := {
  Pin : Z -> option pin_mode -> M world pin_obj;
  Pin_value : pin_obj -> M world Z
}.

(** [machine.I2C]: the constructor [I2C(id, scl=..., sda=...)] and
    [i2c.scan()]. *)
Class MachineI2C (world : Type) : Type := {
  I2C : Z -> pin_obj -> pin_obj -> M world i2c_obj;
  I2C_scan : i2c_obj -> M world (list Z)
}.

(** [network.WLAN]: the constructor, [wlan.active(flag)] and [wlan.scan()]. *)
Class NetworkWLAN (world : Type) : Type := {
  WLAN : wlan_interface -> M world wlan_obj;
  WLAN_active : wlan_obj -> bool -> M world unit;
  WLAN_scan : wlan_obj -> M world (list scan_entry)
}.

(** [bytes.decode('utf-8')]: the text, or a UnicodeError. *)
Class Utf8Codec : Type := {
  bytes_decode_utf8 : list byte -> outcome string
}.

(** [gc.mem_free()], [gc.mem_alloc()], [machine.freq()], [time.time()],
    [hasattr(machine, 'temperature')] and [machine.temperature()]. *)
Class SystemInfo (world : Type) : Type := {
  gc_mem_free : M world Z;
  gc_mem_alloc : M world Z;
  machine_freq : M world Z;
  time_time : M world Z;
  machine_has_temperature : bool;
  machine_temperature : M world Z
}.

(** What a loop with one contained access per unit saw: the outcome of the
    access of every unit in turn, and the device afterwards. *)
Fixpoint observe {S U A : Type} (access : U -> M S A) (units : list U) (s : S)
  : list (U * outcome A) * S :=
  match units with
  | [] => ([], s)
  | u :: rest =>
      match access u s with
      | (o, s') =>
          match observe access rest s' with
          | (obs, s'') => ((u, o) :: obs, s'')
          end
      end
  end.

(** The units whose access succeeded, with what they gave. *)
Fixpoint successes {U A : Type} (obs : list (U * outcome A)) : list (U * A) :=
  match obs with
  | [] => []
  | (u, Ret a) :: rest => (u, a) :: successes rest
  | (_, Raise _) :: rest => successes rest
  end.

(* ================================================================== *)
(** * gpio_monitor.py *)
(* ================================================================== *)

Section GpioMonitor.
Context {world : Type} {machine_pin : MachinePin world}.

(** [pin_numbers], the candidate pins. *)
Definition pin_numbers : list Z :=
  [2; 4; 5; 16; 17; 18; 19; 21; 22; 23; 25; 26; 27; 32; 33].

(** [f'pin_{pin_num}'] *)
Definition pin_label (pin_num : Z) : string :=
  "pin_" ++ str_of_int pin_num.

(** The hardware access of one pin: [Pin(pin_num, Pin.IN)] then
    [pin.value()]. *)
Definition read_pin (pin_num : Z) : M world Z :=
  pin <- Pin pin_num (Some Pin_IN) ;;
  Pin_value pin.

(** The [for pin_num in pin_numbers] loop with its inner [try]/[except:
    pass]; [states] is the dict built so far. *)
Fixpoint gpio_loop (pins : list Z) (states : dict) : M world dict :=
  match pins with
  | [] => ret states
  | pin_num :: rest =>
      states' <-
        try_except
          (pin <- Pin pin_num (Some Pin_IN) ;;
           v <- Pin_value pin ;;
           ret (dict_set states (pin_label pin_num) (VInt v)))
          (fun _ => ret states) ;;
      gpio_loop rest states'
  end.

(** [get_gpio_states] with the candidate list as an argument. *)
Definition get_gpio_states_over (pins : list Z) : M world value :=
  try_except
    (states <- gpio_loop pins [] ;;
     ret (VDict states))
    (fun e => ret (error_record e)).

Definition get_gpio_states : M world value :=
  get_gpio_states_over pin_numbers.

Definition send_gpio_states : M (console world) unit :=
  states <- on_device get_gpio_states ;;
  print ("__GPIO_STATE__" ++ json_dumps states).

(** What the loop folds out of the pin reads it saw. *)
Definition gpio_collect (states : dict) (reads : list (Z * Z)) : dict :=
  fold_left (fun st r => dict_set st (pin_label (fst r)) (VInt (snd r)))
            reads states.

End GpioMonitor.

(* ================================================================== *)
(** * i2c_scanner.py *)
(* ================================================================== *)

Record i2c_config : Type := mkConfig {
  cfg_id : Z;
  cfg_scl : Z;
  cfg_sda : Z
}.

(** [device not in found_devices] *)
Definition not_in (device : Z) (found_devices : list Z) : bool :=
  negb (existsb (Z.eqb device) found_devices).

(** The inner [for device in devices] loop. *)
Fixpoint add_devices (devices found_devices : list Z) : list Z :=
  match devices with
  | [] => found_devices
  | device :: rest =>
      add_devices rest
        (if not_in device found_devices
         then found_devices ++ [device]
         else found_devices)
  end.

Section I2cScanner.
Context {world : Type} {machine_pin : MachinePin world}
        {machine_i2c : MachineI2C world}.

(** [i2c_configs], the candidate bus configurations. *)
Definition i2c_configs : list i2c_config :=
  [ mkConfig 0 22 21;    (* Default ESP32 I2C pins *)
    mkConfig 1 25 26 ].  (* Alternative I2C pins *)

(** The hardware access of one configuration: bring the bus up on its two
    pins, then [i2c.scan()]. *)
Definition scan_bus (config : i2c_config) : M world (list Z) :=
  scl <- Pin (cfg_scl config) None ;;
  sda <- Pin (cfg_sda config) None ;;
  i2c <- I2C (cfg_id config) scl sda ;;
  I2C_scan i2c.

(** The [for config in i2c_configs] loop with its inner [try]/[except:
    continue]. *)
Fixpoint i2c_loop (configs : list i2c_config) (found_devices : list Z)
  : M world (list Z) :=
  match configs with
  | [] => ret found_devices
  | config :: rest =>
      found' <-
        try_except
          (scl <- Pin (cfg_scl config) None ;;
           sda <- Pin (cfg_sda config) None ;;
           i2c <- I2C (cfg_id config) scl sda ;;
           devices <- I2C_scan i2c ;;
           ret (add_devices devices found_devices))
          (fun _ => ret found_devices) ;;
      i2c_loop rest found'
  end.

(** [scan_i2c_devices] with the configuration list as an argument. *)
Definition scan_i2c_devices_over (configs : list i2c_config) : M world value :=
  try_except
    (found_devices <- i2c_loop configs [] ;;
     ret (VList (map VInt found_devices)))
    (fun e => ret (error_record e)).

Definition scan_i2c_devices : M world value :=
  scan_i2c_devices_over i2c_configs.

Definition send_i2c_scan : M (console world) unit :=
  devices <- on_device scan_i2c_devices ;;
  print ("__I2C_DEVICES__" ++ json_dumps devices).

End I2cScanner.

(** The address lists of the buses that could be scanned, in scan order. *)
Definition scanned {U : Type} (obs : list (U * outcome (list Z))) : list (list Z) :=
  map snd (successes obs).

(* ================================================================== *)
(** * wifi_scanner.py *)
(* ================================================================== *)

(** ['%x' % n]: lowercase hexadecimal digits, at least one. *)
Definition format_x (n : N) : string :=
  HexadecimalString.NilZero.string_of_uint (N.to_hex_uint n).

(** Left padding with ['0'] up to [width] characters (the [0<width>] flag). *)
Definition zero_pad (width : nat) (s : string) : string :=
  string_of_list_ascii (repeat "0"%char (width - String.length s)) ++ s.

(** ['%02x' % b] for a byte [b]. *)
Definition format_02x (b : byte) : string :=
  zero_pad 2 (format_x (Byte.to_N b)).

(** [security_map] *)
Definition security_map : list (Z * string) :=
  [ (0, "Open");
    (1, "WEP");
    (2, "WPA-PSK");
    (3, "WPA2-PSK");
    (4, "WPA/WPA2-PSK") ].

(** [security_map.get(key, default)] *)
Fixpoint map_get (m : list (Z * string)) (key : Z) (default : string) : string :=
  match m with
  | [] => default
  | (k, v) :: rest => if Z.eqb k key then v else map_get rest key default
  end.

Section WifiScanner.
Context {world : Type} {network : NetworkWLAN world} {codec : Utf8Codec}.

(** The [for net in networks] loop; [network_list] is the list built so
    far.  Nothing inside the loop is contained. *)
Fixpoint wifi_loop (networks : list scan_entry) (network_list : list value)
  : M world (list value) :=
  match networks with
  | [] => ret network_list
  | net :: rest =>
      ssid <- match net_ssid net with
              | [] => ret EmptyString
              | _ :: _ => pure_call (bytes_decode_utf8 (net_ssid net))
              end ;;
      let bssid := join ":" (map format_02x (net_bssid net)) in
      let channel := net_channel net in
      let rssi := net_rssi net in
      let security := net_security net in
      wifi_loop rest
        (network_list ++
         [ VDict [ ("ssid", VStr ssid);
                   ("bssid", VStr bssid);
                   ("channel", VInt channel);
                   ("rssi", VInt rssi);
                   ("security",
                    VStr (map_get security_map security "Unknown")) ] ])
  end.

Definition scan_wifi_networks : M world value :=
  try_except
    (wlan <- WLAN STA_IF ;;
     WLAN_active wlan true ;;;
     networks <- WLAN_scan wlan ;;
     network_list <- wifi_loop networks [] ;;
     ret (VList network_list))
    (fun e => ret (error_record e)).

Definition send_wifi_scan : M (console world) unit :=
  networks <- on_device scan_wifi_networks ;;
  print ("__WIFI_SCAN__" ++ json_dumps networks).

(** Two parts of the probe, named for the statements about it: the three
    driver calls that produce the tuples, and the formatting of one tuple
    (the loop body up to the [append]). *)
Definition wifi_scan_call : M world (list scan_entry) :=
  wlan <- WLAN STA_IF ;;
  WLAN_active wlan true ;;;
  WLAN_scan wlan.

Definition format_network (net : scan_entry) : M world value :=
  ssid <- match net_ssid net with
          | [] => ret EmptyString
          | _ :: _ => pure_call (bytes_decode_utf8 (net_ssid net))
          end ;;
  ret (VDict [ ("ssid", VStr ssid);
               ("bssid", VStr (join ":" (map format_02x (net_bssid net))));
               ("channel", VInt (net_channel net));
               ("rssi", VInt (net_rssi net));
               ("security",
                VStr (map_get security_map (net_security net) "Unknown")) ]).

End WifiScanner.

(* ================================================================== *)
(** * system_monitor.py *)
(* ================================================================== *)

Section SystemMonitor.
Context {world : Type} {system : SystemInfo world}.

(** The values of the [metrics] literal are read in source order before the
    dict is built; the inner [try] adds [temp] when the platform has it. *)
Definition get_system_metrics : M world value :=
  try_except
    (free <- gc_mem_free ;;
     allocated <- gc_mem_alloc ;;
     freq <- machine_freq ;;
     timestamp <- time_time ;;
     let metrics :=
       [ ("memory", VDict [ ("free", VInt free);
                            ("allocated", VInt allocated) ]);
         ("freq", VInt freq);
         ("timestamp", VInt timestamp) ] in
     metrics <-
       try_except
         (if machine_has_temperature
          then temp <- machine_temperature ;;
               ret (dict_set metrics "temp" (VInt temp))
          else ret metrics)
         (fun _ => ret metrics) ;;
     ret (VDict metrics))
    (fun e =>
       timestamp <- time_time ;;
       ret (VDict [ ("error", VStr (str e)); ("timestamp", VInt timestamp) ])).

Definition send_metrics : M (console world) unit :=
  metrics <- on_device get_system_metrics ;;
  print ("__MONITOR_DATA__" ++ json_dumps metrics).

(** Parts of the probe, named for the statements about it: the [metrics]
    literal, the four reads that fill it, and the inner [try] around the
    temperature. *)
Definition metrics_record (free allocated freq timestamp : Z) : dict :=
  [ ("memory", VDict [ ("free", VInt free); ("allocated", VInt allocated) ]);
    ("freq", VInt freq);
    ("timestamp", VInt timestamp) ].

Definition collect_metrics : M world dict :=
  free <- gc_mem_free ;;
  allocated <- gc_mem_alloc ;;
  freq <- machine_freq ;;
  timestamp <- time_time ;;
  ret (metrics_record free allocated freq timestamp).

Definition add_temperature (metrics : dict) : M world dict :=
  try_except
    (if machine_has_temperature
     then temp <- machine_temperature ;;
          ret (dict_set metrics "temp" (VInt temp))
     else ret metrics)
    (fun _ => ret metrics).

End SystemMonitor.

(* ================================================================== *)
(** * Notions the statements are phrased in *)
(* ================================================================== *)

(** Does the text contain a line break? *)
Fixpoint has_newline (s : string) : bool :=
  match s with
  | EmptyString => false
  | String c rest => Ascii.eqb c newline || has_newline rest
  end.

(** The four sentinel tags. *)
Definition sentinels : list string :=
  [ "__GPIO_STATE__"; "__I2C_DEVICES__"; "__MONITOR_DATA__"; "__WIFI_SCAN__" ].

(** The text of a marker line: the tag immediately followed by
    [json.dumps(payload)]. *)
Definition marker_line (tag : string) (payload : value) : string :=
  tag ++ json_dumps payload.

(** [mem a l]: does [a] occur in [l]? *)
Definition mem (a : Z) (l : list Z) : bool := existsb (Z.eqb a) l.

(** First-discovery order of a stream of addresses: the address at a position
    is listed iff it does not occur at an earlier position ([earlier] is the
    part of the stream already passed). *)
Fixpoint first_occurrences_from (earlier stream : list Z) : list Z :=
  match stream with
  | [] => []
  | a :: rest =>
      (if mem a earlier then [] else [a])
        ++ first_occurrences_from (earlier ++ [a]) rest
  end.

Definition first_occurrences (stream : list Z) : list Z :=
  first_occurrences_from [] stream.

(** An I2C address. *)
Definition i2c_address (a : Z) : Prop := 0 <= a <= 127.

(** The security classification as the specification tabulates it. *)
Definition security_label (code : Z) : string :=
  match code with
  | 0 => "Open"
  | 1 => "WEP"
  | 2 => "WPA-PSK"
  | 3 => "WPA2-PSK"
  | 4 => "WPA/WPA2-PSK"
  | _ => "Unknown"
  end.

(** A byte as two lowercase hexadecimal digits, high nibble first. *)
Definition two_hex_digits (b : byte) : string :=
  let n := Byte.to_N b in
  String (hex_digit (n / 16)) (String (hex_digit (n mod 16)) EmptyString).

(** Bytes as colon-separated two-digit lowercase hex. *)
Definition colon_hex (bs : list byte) : string :=
  join ":" (map two_hex_digits bs).

(** The record the specification asks for a scanned network whose SSID
    reads [ssid_text]. *)
Definition network_record (net : scan_entry) (ssid_text : string) : value :=
  VDict [ ("ssid", VStr ssid_text);
          ("bssid", VStr (colon_hex (net_bssid net)));
          ("channel", VInt (net_channel net));
          ("rssi", VInt (net_rssi net));
          ("security", VStr (security_label (net_security net))) ].

(** [ssid_text] is the SSID of [net] as text: empty when the SSID bytes are
    absent, what decoding gives otherwise. *)
Definition ssid_reads {codec : Utf8Codec} (net : scan_entry) (ssid_text : string)
  : Prop :=
  match net_ssid net with
  | [] => ssid_text = EmptyString
  | _ :: _ => bytes_decode_utf8 (net_ssid net) = Ret ssid_text
  end.

(** [record] is the specified record of [net]. *)
Definition describes {codec : Utf8Codec} (net : scan_entry) (record : value)
  : Prop :=
  exists ssid_text, ssid_reads net ssid_text /\ record = network_record net ssid_text.

(** The SSID of [net] cannot be turned into text: decoding raises [e]. *)
Definition ssid_undecodable {codec : Utf8Codec} (net : scan_entry) (e : exn)
  : Prop :=
  net_ssid net <> [] /\ bytes_decode_utf8 (net_ssid net) = Raise e.

(** Induction over values that reaches into lists and dicts. *)
Fixpoint value_ind' (P : value -> Prop)
    (HInt : forall n, P (VInt n))
    (HStr : forall s, P (VStr s))
    (HList : forall items, Forall P items -> P (VList items))
    (HDict : forall entries, Forall (fun kv => P (snd kv)) entries ->
                             P (VDict entries))
    (v : value) {struct v} : P v :=
  match v with
  | VInt n => HInt n
  | VStr s => HStr s
  | VList items =>
      HList items
        ((fix all (l : list value) : Forall P l :=
            match l with
            | [] => Forall_nil P
            | x :: r =>
                Forall_cons x (value_ind' P HInt HStr HList HDict x) (all r)
            end) items)
  | VDict entries =>
      HDict entries
        ((fix all (l : list (string * value))
            : Forall (fun kv => P (snd kv)) l :=
            match l with
            | [] => Forall_nil _
            | (k, x) :: r =>
                Forall_cons (k, x)
                  (value_ind' P HInt HStr HList HDict x) (all r)
            end) entries)
  end.

(* ================================================================== *)
(** * Boards for the examples *)
(* ================================================================== *)

(** The example boards keep one number as their state: the driver calls made
    so far.  It is also what their clock shows. *)
Definition driver_call {A : Type} (o : outcome A) : M nat A :=
  fun calls => (o, S calls).

(** Only GPIO 2 is wired, and it is high; the level of any other pin cannot
    be read. *)
Definition board_pin2_high : MachinePin nat := {|
  Pin := fun id _ => driver_call (Ret (mkPin id));
  Pin_value := fun pin =>
    driver_call (if pin_id pin =? 2 then Ret 1
                 else Raise (Exception "pin unreadable"))
|}.

(** No pin can be configured at all. *)
Definition board_no_pins : MachinePin nat := {|
  Pin := fun _ _ => driver_call (Raise (Exception "invalid pin"));
  Pin_value := fun _ => driver_call (Ret 0)
|}.

(** Every pin can be configured and reads low. *)
Definition board_pins_low : MachinePin nat := {|
  Pin := fun id _ => driver_call (Ret (mkPin id));
  Pin_value := fun _ => driver_call (Ret 0)
|}.

(** Bus 0 carries a display at 0x3C and a clock at 0x68; bus 1 cannot be
    brought up. *)
Definition board_bus0_only : MachineI2C nat := {|
  I2C := fun id _ _ =>
    driver_call (if id =? 0 then Ret (mkI2C id)
                 else Raise (Exception "bus unavailable"));
  I2C_scan := fun _ => driver_call (Ret [60; 104])
|}.

(** Both buses work; the clock at 0x68 answers on both, bus 1 also carries an
    expander at 0x20. *)
Definition board_two_buses : MachineI2C nat := {|
  I2C := fun id _ _ => driver_call (Ret (mkI2C id));
  I2C_scan := fun i2c =>
    driver_call (Ret (if i2c_bus i2c =? 0 then [60; 104] else [104; 32; 60]))
|}.

(** A radio whose scan finds [nets]. *)
Definition radio (nets : list scan_entry) : NetworkWLAN nat := {|
  WLAN := fun iface => driver_call (Ret (mkWLAN iface));
  WLAN_active := fun _ _ => driver_call (Ret tt);
  WLAN_scan := fun _ => driver_call (Ret nets)
|}.

(** A board without a radio. *)
Definition no_radio : NetworkWLAN nat := {|
  WLAN := fun _ => driver_call (Raise (Exception "Wifi Unknown Error"));
  WLAN_active := fun _ _ => driver_call (Ret tt);
  WLAN_scan := fun _ => driver_call (Ret [])
|}.

(** The UTF-8 check of MicroPython's [bytes.decode]: [need] continuation
    bytes are still owed. *)
Fixpoint utf8_check (need : N) (bs : list byte) : bool :=
  match bs with
  | [] => (need =? 0)%N
  | b :: rest =>
      let c := Byte.to_N b in
      if (0 <? need)%N
      then if (N.land c 192 =? 128)%N then utf8_check (need - 1)%N rest else false
      else if (192 <=? c)%N
           then if (248 <=? c)%N then false
                else utf8_check
                       (N.land (N.shiftr 229 (N.land (N.shiftr c 3) 6)) 3) rest
           else if (128 <=? c)%N then false
                else utf8_check 0%N rest
  end.

(** MicroPython's decoder: the same bytes as a str when they pass the check,
    a UnicodeError (which has no message) otherwise. *)
Definition micropython_codec : Utf8Codec := {|
  bytes_decode_utf8 := fun bs =>
    if utf8_check 0%N bs then Ret (string_of_list_byte bs)
    else Raise (Exception EmptyString)
|}.

Definition mac (b0 b1 b2 b3 b4 b5 : byte) : list byte := [b0; b1; b2; b3; b4; b5].

(** Three networks: a WPA2 one, a hidden open one and one whose driver
    reports security code 7. *)
Definition net_home : scan_entry :=
  mkScan (list_byte_of_string "home") (mac x00 x1a x2b x3c x4d x5e) 6 (-48) 3 0.
Definition net_hidden_open : scan_entry :=
  mkScan [] (mac xde xad xbe xef x00 x01) 1 (-70) 0 1.
Definition net_code7 : scan_entry :=
  mkScan (list_byte_of_string "lab") (mac x0a x0b x0c x0d x0e x0f) 11 (-81) 7 0.

(** A network whose SSID is the single byte 0xFF, which is not UTF-8. *)
Definition net_garbled : scan_entry :=
  mkScan [xff] (mac x11 x22 x33 x44 x55 x66) 3 (-60) 4 0.

(** A healthy board without a temperature sensor. *)
Definition board_no_sensor : SystemInfo nat := {|
  gc_mem_free := driver_call (Ret 98304);
  gc_mem_alloc := driver_call (Ret 12800);
  machine_freq := driver_call (Ret 160000000);
  time_time := fun calls => (Ret (Z.of_nat calls), S calls);
  machine_has_temperature := false;
  machine_temperature := driver_call (Raise (Exception "no sensor"))
|}.

(** The same board with a temperature sensor that cannot be read. *)
Definition board_sensor_fault : SystemInfo nat := {|
  gc_mem_free := driver_call (Ret 98304);
  gc_mem_alloc := driver_call (Ret 12800);
  machine_freq := driver_call (Ret 160000000);
  time_time := fun calls => (Ret (Z.of_nat calls), S calls);
  machine_has_temperature := true;
  machine_temperature := driver_call (Raise (Exception "sensor fault"))
|}.

(** A board with a working sensor. *)
Definition board_with_sensor : SystemInfo nat := {|
  gc_mem_free := driver_call (Ret 98304);
  gc_mem_alloc := driver_call (Ret 12800);
  machine_freq := driver_call (Ret 160000000);
  time_time := fun calls => (Ret (Z.of_nat calls), S calls);
  machine_has_temperature := true;
  machine_temperature := driver_call (Ret 53)
|}.

(** The clock frequency cannot be read; the clock itself works. *)
Definition board_freq_fault : SystemInfo nat := {|
  gc_mem_free := driver_call (Ret 98304);
  gc_mem_alloc := driver_call (Ret 12800);
  machine_freq := driver_call (Raise (Exception "freq unavailable"));
  time_time := fun calls => (Ret (Z.of_nat calls), S calls);
  machine_has_temperature := false;
  machine_temperature := driver_call (Raise (Exception "no sensor"))
|}.

(** A port built without [time.time]: every call raises the AttributeError
    of the missing attribute. *)
Definition board_no_clock : SystemInfo nat := {|
  gc_mem_free := driver_call (Ret 98304);
  gc_mem_alloc := driver_call (Ret 12800);
  machine_freq := driver_call (Ret 160000000);
  time_time := driver_call (Raise (Exception "'module' object has no attribute 'time'"));
  machine_has_temperature := false;
  machine_temperature := driver_call (Raise (Exception "no sensor"))
|}.

(* ================================================================== *)
(** * boot.py: the MAC address line *)
(* ================================================================== *)

(** [c.upper()] for one ASCII character. *)
Definition ascii_upper (c : ascii) : ascii :=
  let n := N_of_ascii c in
  if ((97 <=? n) && (n <=? 122))%N then ascii_of_N (n - 32) else c.

Fixpoint str_upper (s : string) : string :=
  match s with
  | EmptyString => EmptyString
  | String c rest => String (ascii_upper c) (str_upper rest)
  end.

(** [f'{byte:02X}']: as ['%02x'] with upper-case letters for the digits
    above 9. *)
Definition format_02X (b : byte) : string :=
  zero_pad 2 (str_upper (format_x (Byte.to_N b))).

(** [mac_address = ':'.join([f'{byte:02X}' for byte in mac_bytes])] *)
Definition mac_address (mac_bytes : list byte) : string :=
  join ":" (map format_02X mac_bytes).

(* ================================================================== *)
(** * Further notions for the statements *)
(* ================================================================== *)

(** The value of a lowercase hexadecimal digit, from its character code:
    ['0'..'9'] are 48..57 and ['a'..'f'] are 97..102. *)
Definition hex_value (c : ascii) : option N :=
  let n := N_of_ascii c in
  if ((48 <=? n) && (n <=? 57))%N then Some (n - 48)%N
  else if ((97 <=? n) && (n <=? 102))%N then Some (n - 87)%N
  else None.

(** Reading a colon-separated two-digit lowercase hex text back into bytes,
    as a host would. *)
Fixpoint parse_colon_hex (s : string) : option (list byte) :=
  match s with
  | EmptyString => Some []
  | String h (String l rest) =>
      match hex_value h, hex_value l with
      | Some hi, Some lo =>
          match Byte.of_N (hi * 16 + lo) with
          | Some b =>
              match rest with
              | EmptyString => Some [b]
              | String sep rest' =>
                  if Ascii.eqb sep ":"
                  then option_map (cons b) (parse_colon_hex rest')
                  else None
              end
          | None => None
          end
      | _, _ => None
      end
  | String _ EmptyString => None
  end.

(** The characters a BSSID text is made of. *)
Definition is_bssid_char (c : ascii) : bool :=
  match hex_value c with
  | Some _ => true
  | None => Ascii.eqb c ":"
  end.

Fixpoint all_chars (p : ascii -> bool) (s : string) : bool :=
  match s with
  | EmptyString => true
  | String c rest => p c && all_chars p rest
  end.

(** The six labels the [security] field can take. *)
Definition security_labels : list string :=
  [ "Open"; "WEP"; "WPA-PSK"; "WPA2-PSK"; "WPA/WPA2-PSK"; "Unknown" ].

(** The entry the GPIO loop stores for a pin read. *)
Definition gpio_entry (r : Z * Z) : string * value :=
  (pin_label (fst r), VInt (snd r)).

(** A call that never sets the device clock [now] back, whatever it does. *)
Definition never_rewinds {world A : Type} (now : world -> Z) (f : M world A)
  : Prop :=
  forall w, now w <= now (snd (f w)).

(** A device whose [time.time()], when it returns, shows the clock [now],
    and none of whose system calls sets that clock back. *)
Record steady_clock {world : Type} {system : SystemInfo world}
    (now : world -> Z) : Prop := {
  clock_shown : forall w t w', time_time w = (Ret t, w') -> t = now w;
  clock_time : never_rewinds now time_time;
  clock_mem_free : never_rewinds now gc_mem_free;
  clock_mem_alloc : never_rewinds now gc_mem_alloc;
  clock_freq : never_rewinds now machine_freq;
  clock_temperature : never_rewinds now machine_temperature
}.

(** The timestamp a payload of the system probe carries. *)
Definition timestamp_of (payload : value) : option value :=
  match payload with
  | VDict entries => dict_get entries "timestamp"
  | _ => None
  end.

(* ================================================================== *)
(** * Text: no line break inside a serialized payload *)
(* ================================================================== *)

Lemma has_newline_app (a b : string) :
  has_newline (a ++ b) = has_newline a || has_newline b.
Proof.
  induction a as [|c a IH]; simpl; [reflexivity|].
  now rewrite IH, orb_assoc.
Qed.

Lemma has_newline_join (sep : string) (parts : list string) :
  has_newline sep = false ->
  Forall (fun p => has_newline p = false) parts ->
  has_newline (join sep parts) = false.
Proof.
  intros Hsep Hparts.
  induction Hparts as [|p rest Hp Hrest IH]; [reflexivity|].
  destruct rest as [|q rest]; [exact Hp|].
  change (join sep (p :: q :: rest)) with (p ++ sep ++ join sep (q :: rest)).
  now rewrite !has_newline_app, Hp, Hsep, IH.
Qed.

Lemma decimal_digits_no_newline (d : Decimal.uint) :
  has_newline (DecimalString.NilEmpty.string_of_uint d) = false.
Proof.
  induction d; simpl; auto.
Qed.

Lemma str_of_int_no_newline (n : Z) : has_newline (str_of_int n) = false.
Proof.
  unfold str_of_int, DecimalString.NilZero.string_of_int,
    DecimalString.NilZero.string_of_uint.
  destruct (Z.to_int n) as [d|d]; destruct d; simpl;
    auto using decimal_digits_no_newline.
Qed.

Lemma json_escape_char_no_newline (c : ascii) :
  has_newline (json_escape_char c) = false.
Proof.
  destruct c as [[] [] [] [] [] [] [] []]; vm_compute; reflexivity.
Qed.

Lemma json_escape_no_newline (s : string) :
  has_newline (json_escape s) = false.
Proof.
  induction s as [|c s IH]; simpl; [reflexivity|].
  now rewrite has_newline_app, json_escape_char_no_newline, IH.
Qed.

Lemma json_quote_no_newline (s : string) :
  has_newline (json_quote s) = false.
Proof.
  unfold json_quote. simpl.
  now rewrite has_newline_app, json_escape_no_newline.
Qed.

(** [json.dumps] never emits a line break, whatever the strings inside the
    value contain. *)
Lemma json_dumps_no_newline (v : value) : has_newline (json_dumps v) = false.
Proof.
  induction v as [n|s|items IH|entries IH] using value_ind';
    cbn [json_dumps].
  - apply str_of_int_no_newline.
  - apply json_quote_no_newline.
  - rewrite !has_newline_app. cbn [has_newline Ascii.eqb Bool.eqb newline orb].
    rewrite orb_false_r.
    apply has_newline_join; [reflexivity|].
    induction IH; simpl; constructor; auto.
  - rewrite !has_newline_app. cbn [has_newline Ascii.eqb Bool.eqb newline orb].
    rewrite orb_false_r.
    apply has_newline_join; [reflexivity|].
    induction IH as [|[k x] rest Hx _ IHrest]; cbn [map]; constructor; auto.
    cbn [snd] in Hx.
    now rewrite !has_newline_app, json_quote_no_newline, Hx.
Qed.

Lemma marker_line_no_newline (tag : string) (payload : value) :
  In tag sentinels -> has_newline (marker_line tag payload) = false.
Proof.
  intros Htag. unfold marker_line.
  rewrite has_newline_app, json_dumps_no_newline, orb_false_r.
  simpl in Htag.
  repeat (destruct Htag as [<-|Htag]; [reflexivity|]).
  contradiction.
Qed.

(* ================================================================== *)
(** * Running computations *)
(* ================================================================== *)

(** Unfolds the monad operations in the goal. *)
Ltac run_monad := unfold bind, try_except, ret, raise, pure_call.

(** Case split on what a call in the goal does. *)
Ltac step_call c :=
  let o := fresh "o" in
  let s := fresh "s" in
  let E := fresh "E" in
  destruct c as [o s] eqn:E; destruct o; cbn [fst snd].

Lemma observe_units {S U A : Type} (access : U -> M S A) (units : list U) (s : S) :
  map fst (fst (observe access units s)) = units.
Proof.
  revert s. induction units as [|u rest IH]; intros s; simpl; [reflexivity|].
  destruct (access u s) as [o s1]. specialize (IH s1).
  destruct (observe access rest s1) as [obs s2]. simpl in *. now f_equal.
Qed.

Lemma successes_in {U A : Type} (obs : list (U * outcome A)) (u : U) (a : A) :
  In (u, a) (successes obs) <-> In (u, Ret a) obs.
Proof.
  induction obs as [|[u' [a'|e]] rest IH]; simpl; [tauto| |].
  - rewrite IH. split; intros [H|H]; auto; left; congruence.
  - rewrite IH. split; [auto|]. intros [H|H]; [discriminate|assumption].
Qed.

Lemma successes_units {U A : Type} (obs : list (U * outcome A)) (u : U) :
  In u (map fst (successes obs)) -> In u (map fst obs).
Proof.
  induction obs as [|[u' [a'|e]] rest IH]; simpl; tauto.
Qed.

Lemma successes_NoDup {U A : Type} (obs : list (U * outcome A)) :
  NoDup (map fst obs) -> NoDup (map fst (successes obs)).
Proof.
  induction obs as [|[u [a|e]] rest IH]; simpl; intros Hnd;
    inversion Hnd; subst; auto.
  constructor; auto. intros Hin. now apply successes_units in Hin.
Qed.

Lemma successes_app {U A : Type} (obs1 obs2 : list (U * outcome A)) :
  successes (obs1 ++ obs2) = (successes obs1 ++ successes obs2)%list.
Proof.
  induction obs1 as [|[u [a|e]] rest IH]; simpl; congruence.
Qed.

(** A script [payload <- probe ;; print (tag ++ json.dumps(payload))] writes
    one marker line when the probe returns, and nothing when it raises. *)
Lemma send_returns {world : Type} (probe : M world value) (tag : string)
    (c : console world) (payload : value) (w : world) :
  probe (dev c) = (Ret payload, w) ->
  (payload <- on_device probe ;; print (tag ++ json_dumps payload)) c
  = (Ret tt,
     mkConsole w (stdout c ++ marker_line tag payload ++ String newline EmptyString)).
Proof.
  intros H. unfold bind, on_device, print. now rewrite H.
Qed.

Lemma send_raises {world : Type} (probe : M world value) (tag : string)
    (c : console world) (e : exn) (w : world) :
  probe (dev c) = (Raise e, w) ->
  (payload <- on_device probe ;; print (tag ++ json_dumps payload)) c
  = (Raise e, mkConsole w (stdout c)).
Proof.
  intros H. unfold bind, on_device, print. now rewrite H.
Qed.

(* ================================================================== *)
(** * Dicts and pin labels *)
(* ================================================================== *)

Lemma dict_get_set_same (d : dict) (k : string) (v : value) :
  dict_get (dict_set d k v) k = Some v.
Proof.
  induction d as [|[k' x] rest IH]; simpl.
  - now rewrite String.eqb_refl.
  - destruct (String.eqb k' k) eqn:E; simpl; now rewrite E.
Qed.

Lemma dict_get_set_other (d : dict) (k k' : string) (v : value) :
  k <> k' -> dict_get (dict_set d k v) k' = dict_get d k'.
Proof.
  intros Hne. induction d as [|[k0 x] rest IH]; simpl.
  - destruct (String.eqb_spec k k'); [contradiction|reflexivity].
  - destruct (String.eqb_spec k0 k) as [->|Hk]; simpl.
    + destruct (String.eqb_spec k k'); [contradiction|reflexivity].
    + now rewrite IH.
Qed.

Lemma dict_get_None (d : dict) (k : string) :
  ~ In k (dict_keys d) -> dict_get d k = None.
Proof.
  induction d as [|[k' x] rest IH]; simpl; intros H; [reflexivity|].
  destruct (String.eqb_spec k' k) as [->|Hk]; [tauto|].
  apply IH. tauto.
Qed.

Lemma dict_set_keys (d : dict) (k : string) (v : value) (k' : string) :
  In k' (dict_keys (dict_set d k v)) -> k' = k \/ In k' (dict_keys d).
Proof.
  induction d as [|[k0 x] rest IH]; simpl.
  - intros [H|[]]; auto.
  - destruct (String.eqb_spec k0 k) as [->|Hk]; simpl.
    + tauto.
    + intros [H|H]; [tauto|]. apply IH in H. tauto.
Qed.

Lemma str_of_int_inj (n m : Z) : str_of_int n = str_of_int m -> n = m.
Proof.
  unfold str_of_int. intros H.
  apply DecimalZ.to_int_inj.
  assert (Hnn : forall z, Z.to_int z <> Decimal.Pos Decimal.Nil
                          /\ Z.to_int z <> Decimal.Neg Decimal.Nil).
  { intros [|p|p]; simpl; split; try discriminate;
      intros [= Hp]; now apply DecimalPos.Unsigned.to_uint_nonnil in Hp. }
  destruct (Hnn n) as [Hn1 Hn2]. destruct (Hnn m) as [Hm1 Hm2].
  pose proof (DecimalString.NilZero.isi _ Hn1 Hn2) as In.
  pose proof (DecimalString.NilZero.isi _ Hm1 Hm2) as Im.
  rewrite H in In. congruence.
Qed.

Lemma pin_label_inj (p q : Z) : pin_label p = pin_label q -> p = q.
Proof.
  unfold pin_label. simpl. intros [= H]. now apply str_of_int_inj.
Qed.

Lemma pin_label_not_error (p : Z) : pin_label p <> "error".
Proof.
  unfold pin_label. simpl. discriminate.
Qed.

Lemma gpio_collect_other (reads : list (Z * Z)) (states : dict) (key : string) :
  (forall p, In p (map fst reads) -> pin_label p <> key) ->
  dict_get (gpio_collect states reads) key = dict_get states key.
Proof.
  revert states. unfold gpio_collect.
  induction reads as [|[p v] rest IH]; intros states H; simpl; [reflexivity|].
  rewrite IH by (intros q Hq; apply H; simpl; auto).
  apply dict_get_set_other. apply H. simpl. auto.
Qed.

Lemma gpio_collect_get (reads : list (Z * Z)) (states : dict) (p v : Z) :
  NoDup (map fst reads) -> In (p, v) reads ->
  dict_get (gpio_collect states reads) (pin_label p) = Some (VInt v).
Proof.
  revert states. unfold gpio_collect.
  induction reads as [|[q x] rest IH]; intros states Hnd Hin; simpl in *;
    [contradiction|].
  inversion Hnd as [|? ? Hq Hrest]; subst.
  destruct Hin as [[= -> ->]|Hin].
  - fold (gpio_collect (dict_set states (pin_label p) (VInt v)) rest).
    rewrite gpio_collect_other; [apply dict_get_set_same|].
    intros r Hr Heq. apply pin_label_inj in Heq. now subst.
  - now apply IH.
Qed.

(* ================================================================== *)
(** * gpio_monitor.py: the loop in terms of what it saw *)
(* ================================================================== *)

Section GpioFacts.
Context {world : Type} {machine_pin : MachinePin world}.

(** One turn of the loop: a pin that reads [v] is stored, a pin whose
    access raises leaves the dict as it was; the loop goes on either way. *)
Lemma gpio_loop_step (pin_num : Z) (rest : list Z) (states : dict) (w : world) :
  gpio_loop (pin_num :: rest) states w
  = match read_pin pin_num w with
    | (Ret v, w') =>
        gpio_loop rest (dict_set states (pin_label pin_num) (VInt v)) w'
    | (Raise _, w') => gpio_loop rest states w'
    end.
Proof.
  cbn [gpio_loop]. unfold read_pin. run_monad.
  step_call (Pin pin_num (Some Pin_IN) w); [|reflexivity].
  step_call (Pin_value a s); reflexivity.
Qed.

Lemma gpio_loop_observed (pins : list Z) (states : dict) (w : world)
    (obs : list (Z * outcome Z)) (w' : world) :
  observe read_pin pins w = (obs, w') ->
  gpio_loop pins states w = (Ret (gpio_collect states (successes obs)), w').
Proof.
  revert states w obs.
  induction pins as [|pin_num rest IH]; intros states w obs Hobs.
  - simpl in Hobs. injection Hobs as <- <-. reflexivity.
  - rewrite gpio_loop_step. simpl in Hobs.
    destruct (read_pin pin_num w) as [[v|e] w1];
      destruct (observe read_pin rest w1) as [obs1 w2] eqn:Hrest;
      injection Hobs as <- <-; simpl; now apply IH.
Qed.

Lemma get_gpio_states_observed (pins : list Z) (w : world)
    (obs : list (Z * outcome Z)) (w' : world) :
  observe read_pin pins w = (obs, w') ->
  get_gpio_states_over pins w
  = (Ret (VDict (gpio_collect [] (successes obs))), w').
Proof.
  intros Hobs. unfold get_gpio_states_over. run_monad.
  now rewrite (gpio_loop_observed _ _ _ _ _ Hobs).
Qed.

(** The GPIO probe returns on every board. *)
Lemma get_gpio_states_returns (pins : list Z) (w : world) :
  exists states w', get_gpio_states_over pins w = (Ret (VDict states), w').
Proof.
  destruct (observe read_pin pins w) as [obs w'] eqn:Hobs.
  eauto using get_gpio_states_observed.
Qed.

End GpioFacts.

(** No pin label is the key of the error record. *)
Lemma gpio_collect_no_error (reads : list (Z * Z)) :
  dict_get (gpio_collect [] reads) "error" = None.
Proof.
  rewrite gpio_collect_other; [reflexivity|].
  intros p _. apply pin_label_not_error.
Qed.

(* ================================================================== *)
(** * i2c_scanner.py: deduplication and the loop *)
(* ================================================================== *)

Lemma mem_In (a : Z) (l : list Z) : mem a l = true <-> In a l.
Proof.
  unfold mem. rewrite existsb_exists. split.
  - intros (x & Hx & E). apply Z.eqb_eq in E. now subst.
  - intros H. exists a. split; [assumption|apply Z.eqb_refl].
Qed.

Lemma not_in_mem (device : Z) (found : list Z) :
  not_in device found = negb (mem device found).
Proof. reflexivity. Qed.

Lemma add_devices_app (devices1 devices2 found : list Z) :
  add_devices (devices1 ++ devices2) found
  = add_devices devices2 (add_devices devices1 found).
Proof.
  revert found. induction devices1 as [|d rest IH]; intros found; simpl;
    [reflexivity|apply IH].
Qed.

(** The inner loop only ever appends: what was found stays, in place. *)
Lemma add_devices_extends (devices found : list Z) :
  exists added, add_devices devices found = (found ++ added)%list.
Proof.
  revert found. induction devices as [|d rest IH]; intros found; simpl.
  - exists []. now rewrite app_nil_r.
  - destruct (not_in d found).
    + destruct (IH (found ++ [d])%list) as [added ->].
      exists (d :: added). now rewrite <- app_assoc.
    + apply IH.
Qed.

Lemma add_devices_keeps (devices found : list Z) (a : Z) :
  In a found -> In a (add_devices devices found).
Proof.
  intros H. destruct (add_devices_extends devices found) as [added ->].
  apply in_or_app. now left.
Qed.

Lemma add_devices_adds (devices found : list Z) (a : Z) :
  In a devices -> In a (add_devices devices found).
Proof.
  revert found. induction devices as [|d rest IH]; intros found; simpl;
    [contradiction|].
  intros [->|H]; [|now apply IH].
  apply add_devices_keeps. rewrite not_in_mem.
  destruct (mem a found) eqn:E; simpl.
  - now apply mem_In.
  - apply in_or_app. right. now left.
Qed.

Lemma add_devices_only (devices found : list Z) (a : Z) :
  In a (add_devices devices found) -> In a found \/ In a devices.
Proof.
  revert found. induction devices as [|d rest IH]; intros found; simpl;
    [tauto|].
  intros H. apply IH in H. destruct H as [H|H]; [|tauto].
  destruct (not_in d found); [|tauto].
  apply in_app_or in H. simpl in H. tauto.
Qed.

Lemma add_devices_NoDup (devices found : list Z) :
  NoDup found -> NoDup (add_devices devices found).
Proof.
  revert found. induction devices as [|d rest IH]; intros found Hnd; simpl;
    [assumption|].
  apply IH. rewrite not_in_mem.
  destruct (mem d found) eqn:E; simpl; [assumption|].
  apply NoDup_app; [assumption|repeat constructor; intros []|].
  intros x Hx [<-|[]]. apply mem_In in Hx. congruence.
Qed.

(** The loop's membership test against what was found so far agrees with
    membership in the part of the stream already passed, as long as both hold
    the same addresses. *)
Lemma add_devices_first_occurrences (stream found earlier : list Z) :
  (forall a, In a found <-> In a earlier) ->
  add_devices stream found
  = (found ++ first_occurrences_from earlier stream)%list.
Proof.
  revert found earlier.
  induction stream as [|d rest IH]; intros found earlier Hsame; simpl.
  - now rewrite app_nil_r.
  - rewrite not_in_mem.
    assert (Hmem : mem d found = mem d earlier).
    { destruct (mem d found) eqn:E1, (mem d earlier) eqn:E2; auto.
      - apply mem_In, Hsame, mem_In in E1. congruence.
      - apply mem_In, Hsame, mem_In in E2. congruence. }
    rewrite Hmem.
    destruct (mem d earlier) eqn:E; simpl.
    + apply IH. intros a. rewrite in_app_iff, <- Hsame. simpl.
      split; [tauto|]. intros [H|[<-|[]]]; [assumption|].
      apply Hsame, mem_In. assumption.
    + rewrite (IH (found ++ [d])%list (earlier ++ [d])%list).
      * now rewrite <- app_assoc.
      * intros a. rewrite !in_app_iff, Hsame. tauto.
Qed.

Section I2cFacts.
Context {world : Type} {machine_pin : MachinePin world}
        {machine_i2c : MachineI2C world}.

(** One turn of the loop: the addresses of a bus that could be scanned are
    merged in, a configuration whose bring-up or scan raises changes
    nothing; the loop goes on either way. *)
Lemma i2c_loop_step (config : i2c_config) (rest : list i2c_config)
    (found : list Z) (w : world) :
  i2c_loop (config :: rest) found w
  = match scan_bus config w with
    | (Ret devices, w') => i2c_loop rest (add_devices devices found) w'
    | (Raise _, w') => i2c_loop rest found w'
    end.
Proof.
  cbn [i2c_loop]. unfold scan_bus. run_monad.
  step_call (Pin (cfg_scl config) None w); [|reflexivity].
  step_call (Pin (cfg_sda config) None s); [|reflexivity].
  step_call (I2C (cfg_id config) a a0 s0); [|reflexivity].
  step_call (I2C_scan a1 s1); reflexivity.
Qed.

Lemma i2c_loop_observed (configs : list i2c_config) (found : list Z)
    (w : world) (obs : list (i2c_config * outcome (list Z))) (w' : world) :
  observe scan_bus configs w = (obs, w') ->
  i2c_loop configs found w
  = (Ret (add_devices (List.concat (scanned obs)) found), w').
Proof.
  revert found w obs.
  induction configs as [|config rest IH]; intros found w obs Hobs.
  - simpl in Hobs. injection Hobs as <- <-. reflexivity.
  - rewrite i2c_loop_step. simpl in Hobs.
    destruct (scan_bus config w) as [[devices|e] w1];
      destruct (observe scan_bus rest w1) as [obs1 w2] eqn:Hrest;
      injection Hobs as <- <-.
    + unfold scanned. simpl. rewrite add_devices_app. now apply IH.
    + unfold scanned. simpl. now apply IH.
Qed.

Lemma scan_i2c_devices_observed (configs : list i2c_config) (w : world)
    (obs : list (i2c_config * outcome (list Z))) (w' : world) :
  observe scan_bus configs w = (obs, w') ->
  scan_i2c_devices_over configs w
  = (Ret (VList (map VInt (add_devices (List.concat (scanned obs)) []))), w').
Proof.
  intros Hobs. unfold scan_i2c_devices_over. run_monad.
  now rewrite (i2c_loop_observed _ _ _ _ _ Hobs).
Qed.

(** The I2C probe returns on every board. *)
Lemma scan_i2c_devices_returns (configs : list i2c_config) (w : world) :
  exists found w',
    scan_i2c_devices_over configs w = (Ret (VList (map VInt found)), w').
Proof.
  destruct (observe scan_bus configs w) as [obs w'] eqn:Hobs.
  eauto using scan_i2c_devices_observed.
Qed.

End I2cFacts.

(* ================================================================== *)
(** * wifi_scanner.py: formatting and the loop *)
(* ================================================================== *)

(** ['%02x' % b] is the two-digit rendering, for each of the 256 bytes. *)
Lemma format_02x_two_digits (b : byte) : format_02x b = two_hex_digits b.
Proof.
  destruct b; vm_compute; reflexivity.
Qed.

Lemma bssid_colon_hex (bs : list byte) :
  join ":" (map format_02x bs) = colon_hex bs.
Proof.
  unfold colon_hex. f_equal. apply map_ext, format_02x_two_digits.
Qed.

(** [security_map.get(code, 'Unknown')] is the specified table, default
    included. *)
Lemma security_map_label (code : Z) :
  map_get security_map code "Unknown" = security_label code.
Proof.
  unfold security_map, map_get.
  repeat match goal with
         | |- context [Z.eqb ?k code] =>
             destruct (Z.eqb_spec k code) as [<-|?]; [reflexivity|]
         end.
  destruct code as [|p|p]; try reflexivity; [congruence|].
  destruct p as [[[]|[]|]|[[]|[]|]|]; try reflexivity; congruence.
Qed.

Lemma security_label_unknown (code : Z) :
  ~ (0 <= code <= 4) -> security_label code = "Unknown".
Proof.
  intros H. destruct code as [|p|p]; try reflexivity; [lia|].
  destruct p as [[[]|[]|]|[[]|[]|]|]; try reflexivity; lia.
Qed.

Section WifiFacts.
Context {world : Type} {network : NetworkWLAN world} {codec : Utf8Codec}.

Lemma format_network_reads (net : scan_entry) (ssid_text : string) (w : world) :
  ssid_reads net ssid_text ->
  format_network net w = (Ret (network_record net ssid_text), w).
Proof.
  unfold ssid_reads, format_network, network_record. intros H. run_monad.
  rewrite bssid_colon_hex, security_map_label.
  destruct (net_ssid net) as [|b bs]; [now subst|now rewrite H].
Qed.

Lemma format_network_undecodable (net : scan_entry) (e : exn) (w : world) :
  ssid_undecodable net e -> format_network net w = (Raise e, w).
Proof.
  unfold ssid_undecodable, format_network. intros [Hne H]. run_monad.
  destruct (net_ssid net) as [|b bs]; [contradiction|now rewrite H].
Qed.

(** One turn of the loop: the record of the network is appended, or the
    fault of its formatting ends the loop. *)
Lemma wifi_loop_step (net : scan_entry) (rest : list scan_entry)
    (network_list : list value) (w : world) :
  wifi_loop (net :: rest) network_list w
  = match format_network net w with
    | (Ret record, w') => wifi_loop rest (network_list ++ [record]) w'
    | (Raise e, w') => (Raise e, w')
    end.
Proof.
  cbn [wifi_loop]. unfold format_network. run_monad.
  destruct (net_ssid net) as [|b bs]; [reflexivity|].
  destruct (bytes_decode_utf8 (b :: bs)); reflexivity.
Qed.

Lemma wifi_loop_describes (networks : list scan_entry) (records : list value)
    (network_list : list value) (w : world) :
  Forall2 describes networks records ->
  wifi_loop networks network_list w = (Ret (network_list ++ records)%list, w).
Proof.
  intros H. revert network_list.
  induction H as [|net record nets recs (s & Hs & ->) _ IH];
    intros network_list.
  - cbn [wifi_loop]. run_monad. now rewrite app_nil_r.
  - rewrite wifi_loop_step, (format_network_reads _ _ _ Hs).
    rewrite IH. now rewrite <- app_assoc.
Qed.

(** The first record that cannot be formatted ends the loop with its
    exception; the records built before it are lost with the loop. *)
Lemma wifi_loop_undecodable (good : list scan_entry) (bad : scan_entry)
    (rest : list scan_entry) (e : exn) (network_list : list value) (w : world) :
  Forall (fun net => exists s, ssid_reads net s) good ->
  ssid_undecodable bad e ->
  wifi_loop (good ++ bad :: rest) network_list w = (Raise e, w).
Proof.
  intros Hgood Hbad. revert network_list.
  induction Hgood as [|net nets (s & Hs) _ IH]; intros network_list;
    cbn [List.app]; rewrite wifi_loop_step.
  - now rewrite (format_network_undecodable _ _ _ Hbad).
  - rewrite (format_network_reads _ _ _ Hs). apply IH.
Qed.

(** The probe in terms of the driver calls and the loop. *)
Lemma scan_wifi_networks_unfold (w : world) :
  scan_wifi_networks w
  = match wifi_scan_call w with
    | (Ret networks, w1) =>
        match wifi_loop networks [] w1 with
        | (Ret network_list, w2) => (Ret (VList network_list), w2)
        | (Raise e, w2) => (Ret (error_record e), w2)
        end
    | (Raise e, w1) => (Ret (error_record e), w1)
    end.
Proof.
  unfold scan_wifi_networks, wifi_scan_call. run_monad.
  step_call (WLAN STA_IF w); [|reflexivity].
  step_call (WLAN_active a true s); [|reflexivity].
  step_call (WLAN_scan a s0); [|reflexivity].
  step_call (wifi_loop a1 [] s1); reflexivity.
Qed.

(** The Wi-Fi probe returns on every board. *)
Lemma scan_wifi_networks_returns (w : world) :
  exists payload w', scan_wifi_networks w = (Ret payload, w').
Proof.
  rewrite scan_wifi_networks_unfold.
  destruct (wifi_scan_call w) as [[networks|e] w1]; eauto.
  destruct (wifi_loop networks [] w1) as [[network_list|e] w2]; eauto.
Qed.

End WifiFacts.

(* ================================================================== *)
(** * system_monitor.py *)
(* ================================================================== *)

Section SystemFacts.
Context {world : Type} {system : SystemInfo world}.

(** The inner [try] around the temperature never lets a fault out, and
    leaves the metrics as they were when there is no reading. *)
Lemma add_temperature_returns (metrics : dict) (w : world) :
  exists metrics' w', add_temperature metrics w = (Ret metrics', w').
Proof.
  unfold add_temperature. run_monad.
  destruct machine_has_temperature; eauto.
  destruct (machine_temperature w) as [[temp|e] w']; eauto.
Qed.

Lemma add_temperature_absent (metrics : dict) (w : world) :
  machine_has_temperature = false ->
  add_temperature metrics w = (Ret metrics, w).
Proof.
  intros H. unfold add_temperature. run_monad. now rewrite H.
Qed.

Lemma add_temperature_fault (metrics : dict) (w : world) (e : exn) (w' : world) :
  machine_has_temperature = true ->
  machine_temperature w = (Raise e, w') ->
  add_temperature metrics w = (Ret metrics, w').
Proof.
  intros H Ht. unfold add_temperature. run_monad. now rewrite H, Ht.
Qed.

(** The probe in terms of its three parts. *)
Lemma get_system_metrics_unfold (w : world) :
  get_system_metrics w
  = match collect_metrics w with
    | (Ret metrics, w1) =>
        match add_temperature metrics w1 with
        | (Ret metrics', w2) => (Ret (VDict metrics'), w2)
        | (Raise e, w2) =>
            (timestamp <- time_time ;;
             ret (VDict [ ("error", VStr (str e));
                          ("timestamp", VInt timestamp) ])) w2
        end
    | (Raise e, w1) =>
        (timestamp <- time_time ;;
         ret (VDict [ ("error", VStr (str e));
                      ("timestamp", VInt timestamp) ])) w1
    end.
Proof.
  unfold get_system_metrics, collect_metrics, add_temperature, metrics_record.
  run_monad.
  step_call (gc_mem_free w); [|reflexivity].
  step_call (gc_mem_alloc s); [|reflexivity].
  step_call (machine_freq s0); [|reflexivity].
  step_call (time_time s1); [|reflexivity].
  destruct machine_has_temperature; [|reflexivity].
  step_call (machine_temperature s2); reflexivity.
Qed.

Lemma collect_metrics_reads (w w1 w2 w3 w4 : world)
    (free allocated freq timestamp : Z) :
  gc_mem_free w = (Ret free, w1) ->
  gc_mem_alloc w1 = (Ret allocated, w2) ->
  machine_freq w2 = (Ret freq, w3) ->
  time_time w3 = (Ret timestamp, w4) ->
  collect_metrics w = (Ret (metrics_record free allocated freq timestamp), w4).
Proof.
  intros H1 H2 H3 H4. unfold collect_metrics. run_monad.
  now rewrite H1, H2, H3, H4.
Qed.

End SystemFacts.

(* ================================================================== *)
(** * First-discovery order *)
(* ================================================================== *)

Lemma first_occurrences_from_in (earlier stream : list Z) (a : Z) :
  In a (first_occurrences_from earlier stream)
  <-> In a stream /\ ~ In a earlier.
Proof.
  revert earlier. induction stream as [|d rest IH]; intros earlier; simpl;
    [tauto|].
  rewrite in_app_iff, IH, in_app_iff. simpl.
  destruct (mem d earlier) eqn:E; simpl.
  - apply mem_In in E. split.
    + intros [[]|[H1 H2]]. tauto.
    + intros [[<-|H1] H2]; [contradiction|].
      right. split; [assumption|]. intros [H|[<-|[]]]; contradiction.
  - assert (Hd : ~ In d earlier) by (rewrite <- mem_In; congruence).
    destruct (Z.eq_dec d a) as [<-|Hne]; [tauto|]. tauto.
Qed.

(** An address is listed iff it occurs in the stream. *)
Lemma first_occurrences_in (stream : list Z) (a : Z) :
  In a (first_occurrences stream) <-> In a stream.
Proof.
  unfold first_occurrences. rewrite first_occurrences_from_in. simpl. tauto.
Qed.

Lemma first_occurrences_from_app (earlier s1 s2 : list Z) :
  first_occurrences_from earlier (s1 ++ s2)
  = (first_occurrences_from earlier s1
     ++ first_occurrences_from (earlier ++ s1) s2)%list.
Proof.
  revert earlier. induction s1 as [|d rest IH]; intros earlier; simpl.
  - now rewrite app_nil_r.
  - rewrite IH, <- !app_assoc. reflexivity.
Qed.

(** An address stands where it was first discovered: just after the
    addresses discovered before its first occurrence, and nowhere else. *)
Lemma first_occurrences_position (s1 s2 : list Z) (a : Z) :
  ~ In a s1 ->
  first_occurrences (s1 ++ a :: s2)
  = (first_occurrences s1 ++ a :: first_occurrences_from (s1 ++ [a]) s2)%list
    /\ ~ In a (first_occurrences s1)
    /\ ~ In a (first_occurrences_from (s1 ++ [a]) s2).
Proof.
  intros Hnew. unfold first_occurrences.
  rewrite first_occurrences_from_app. simpl.
  assert (E : mem a s1 = false).
  { destruct (mem a s1) eqn:E; [apply mem_In in E; contradiction|reflexivity]. }
  rewrite E. repeat split.
  - rewrite first_occurrences_from_in. tauto.
  - rewrite first_occurrences_from_in, in_app_iff. simpl. tauto.
Qed.

(* ================================================================== *)
(** * Claims on the GPIO and I2C probes *)
(* ================================================================== *)

Lemma i2c_loop_app {world : Type} {machine_pin : MachinePin world}
    {machine_i2c : MachineI2C world}
    (before after : list i2c_config) (found : list Z) (w : world) :
  i2c_loop (before ++ after) found w
  = match i2c_loop before found w with
    | (Ret found1, w1) => i2c_loop after found1 w1
    | (Raise e, w1) => (Raise e, w1)
    end.
Proof.
  revert found w. induction before as [|config rest IH]; intros found w.
  - reflexivity.
  - cbn [List.app]. rewrite !i2c_loop_step.
    destruct (scan_bus config w) as [[devices|e] w1]; apply IH.
Qed.

(** C2 (partial-result guarantee).  GPIO: over candidate pins without
    repetition, the mapping returned is built from the successful reads alone;
    every pin that was read is present under its label with the level read,
    and every pin whose access raised is absent.  I2C: the list returned is
    built from the buses that could be scanned alone, and holds exactly the
    addresses those buses reported.  Scenario A: over pins [2, 4], when pin 2
    reads 1 and the read of pin 4 raises, the result is [{"pin_2": 1}]. *)
Theorem partial_result_guarantee :
  (forall (world : Type) (machine_pin : MachinePin world)
          (pins : list Z) (w w' : world) (obs : list (Z * outcome Z)),
      NoDup pins ->
      observe read_pin pins w = (obs, w') ->
      exists states,
        get_gpio_states_over pins w = (Ret (VDict states), w')
        /\ states = gpio_collect [] (successes obs)
        /\ (forall p v, In (p, Ret v) obs ->
                        dict_get states (pin_label p) = Some (VInt v))
        /\ (forall p e, In (p, Raise e) obs ->
                        dict_get states (pin_label p) = None))
  /\ (forall (world : Type) (machine_pin : MachinePin world)
             (machine_i2c : MachineI2C world)
             (configs : list i2c_config) (w w' : world)
             (obs : list (i2c_config * outcome (list Z))),
         observe scan_bus configs w = (obs, w') ->
         exists found,
           scan_i2c_devices_over configs w = (Ret (VList (map VInt found)), w')
           /\ found = add_devices (List.concat (scanned obs)) []
           /\ (forall a, In a found <->
                         exists config devices,
                           In (config, Ret devices) obs /\ In a devices))
  /\ (forall (world : Type) (machine_pin : MachinePin world)
             (w w1 w2 : world) (e : exn),
         read_pin 2 w = (Ret 1, w1) ->
         read_pin 4 w1 = (Raise e, w2) ->
         get_gpio_states_over [2; 4] w = (Ret (VDict [("pin_2", VInt 1)]), w2)).
Proof.
  split; [|split].
  - intros world machine_pin pins w w' obs Hnd Hobs.
    exists (gpio_collect [] (successes obs)).
    assert (Hunits : map fst obs = pins).
    { pose proof (observe_units read_pin pins w) as H. now rewrite Hobs in H. }
    repeat split.
    + now apply get_gpio_states_observed.
    + intros p v Hin. apply gpio_collect_get.
      * apply successes_NoDup. now rewrite Hunits.
      * now apply successes_in.
    + intros p e Hin. rewrite gpio_collect_other; [reflexivity|].
      intros q Hq Heq. apply pin_label_inj in Heq. subst q.
      apply in_map_iff in Hq. destruct Hq as ([p' v] & Hp & Hq).
      simpl in Hp. subst p'. apply successes_in in Hq.
      rewrite <- Hunits in Hnd. clear - Hnd Hin Hq.
      induction obs as [|[u o] rest IH]; simpl in *; [contradiction|].
      inversion Hnd as [|? ? Hu Hrest]; subst.
      destruct Hin as [Hin|Hin], Hq as [Hq|Hq]; try congruence; auto.
      * injection Hin as -> ->. apply Hu.
        change p with (fst (p, @Ret Z v)). now apply in_map.
      * injection Hq as -> ->. apply Hu.
        change p with (fst (p, @Raise Z e)). now apply in_map.
  - intros world machine_pin machine_i2c configs w w' obs Hobs.
    exists (add_devices (List.concat (scanned obs)) []).
    repeat split.
    + now apply scan_i2c_devices_observed.
    + intros Hin. apply add_devices_only in Hin.
      destruct Hin as [[]|Hin].
      apply in_concat in Hin. destruct Hin as (devices & Hd & Ha).
      unfold scanned in Hd. apply in_map_iff in Hd.
      destruct Hd as ([config devices'] & Heq & Hs). simpl in Heq. subst.
      apply successes_in in Hs. eauto.
    + intros (config & devices & Hin & Ha).
      apply add_devices_adds, in_concat. exists devices. split; [|assumption].
      unfold scanned. apply in_map_iff. exists (config, devices).
      split; [reflexivity|]. now apply successes_in.
  - intros world machine_pin w w1 w2 e H2 H4.
    erewrite get_gpio_states_observed;
      [|simpl; rewrite H2, H4; reflexivity].
    reflexivity.
Qed.

(** C2, on a board where only pin 2 can be read: the probe over [2, 4] and
    the probe over the full candidate list both return [{"pin_2": 1}], and
    on a board whose second bus is down the addresses of the first bus are
    all reported. *)
Lemma partial_result_guarantee_witness :
  fst (get_gpio_states_over (machine_pin := board_pin2_high) [2; 4] 0%nat)
  = Ret (VDict [("pin_2", VInt 1)])
  /\ (exists states,
         get_gpio_states (machine_pin := board_pin2_high) 0%nat
         = (Ret (VDict states), 30%nat)
         /\ dict_get states "pin_2" = Some (VInt 1)
         /\ dict_get states "pin_4" = None)
  /\ (exists found,
         scan_i2c_devices (machine_pin := board_pins_low)
           (machine_i2c := board_bus0_only) 0%nat
         = (Ret (VList (map VInt found)), 7%nat)
         /\ In 60 found /\ In 104 found).
Proof.
  destruct partial_result_guarantee as (Hgpio & Hi2c & HscenarioA).
  split; [|split].
  - rewrite (HscenarioA nat board_pin2_high 0%nat 2%nat 4%nat
               (Exception "pin unreadable")); reflexivity.
  - destruct (Hgpio nat board_pin2_high pin_numbers 0%nat 30%nat
                (fst (observe (read_pin (machine_pin := board_pin2_high))
                        pin_numbers 0%nat)))
      as (states & Hrun & _ & Hok & Hbad).
    + unfold pin_numbers.
      repeat (constructor; [simpl; intuition discriminate|]). constructor.
    + reflexivity.
    + exists states. split; [exact Hrun|]. split.
      * apply (Hok 2 1). simpl. auto.
      * apply (Hbad 4 (Exception "pin unreadable")). simpl. auto.
  - destruct (Hi2c nat board_pins_low board_bus0_only i2c_configs 0%nat 7%nat
                (fst (observe (scan_bus (machine_pin := board_pins_low)
                                 (machine_i2c := board_bus0_only))
                        i2c_configs 0%nat)))
      as (found & Hrun & _ & Hall).
    + reflexivity.
    + exists found. split; [exact Hrun|].
      split; apply Hall; exists (mkConfig 0 22 21), [60; 104]; simpl; auto.
Defined.

(** C4 (I2C result).  Whatever the buses did, the probe returns the list of
    addresses the scanned buses reported, taken in configuration order then
    scan order, each address listed once at its first occurrence; the list
    has no duplicates, and when every scan yields addresses in [0, 127] so
    does the list. *)
Theorem i2c_result_first_discovery
    (world : Type) (machine_pin : MachinePin world)
    (machine_i2c : MachineI2C world)
    (configs : list i2c_config) (w w' : world)
    (obs : list (i2c_config * outcome (list Z))) :
  observe scan_bus configs w = (obs, w') ->
  exists found,
    scan_i2c_devices_over configs w = (Ret (VList (map VInt found)), w')
    /\ found = first_occurrences (List.concat (scanned obs))
    /\ NoDup found
    /\ (Forall (Forall i2c_address) (scanned obs) -> Forall i2c_address found).
Proof.
  intros Hobs. exists (add_devices (List.concat (scanned obs)) []).
  split; [now apply scan_i2c_devices_observed|].
  split; [|split].
  - now rewrite (add_devices_first_occurrences _ [] []).
  - apply add_devices_NoDup. constructor.
  - intros Hrange. apply Forall_forall. intros a Ha.
    apply add_devices_only in Ha. destruct Ha as [[]|Ha].
    apply in_concat in Ha. destruct Ha as (devices & Hd & Ha).
    rewrite Forall_forall in Hrange. specialize (Hrange _ Hd).
    rewrite Forall_forall in Hrange. now apply Hrange.
Qed.

(** C4, on a board whose two buses report [60, 104] and [104, 32, 60]: the
    probe returns [60, 104, 32]. *)
Lemma i2c_result_first_discovery_witness :
  scan_i2c_devices (machine_pin := board_pins_low)
    (machine_i2c := board_two_buses) 0%nat
  = (Ret (VList [VInt 60; VInt 104; VInt 32]), 8%nat)
  /\ NoDup [60; 104; 32]
  /\ Forall i2c_address [60; 104; 32].
Proof.
  destruct (i2c_result_first_discovery nat board_pins_low board_two_buses
              i2c_configs 0%nat 8%nat
              [ (mkConfig 0 22 21, Ret [60; 104]);
                (mkConfig 1 25 26, Ret [104; 32; 60]) ] eq_refl)
    as (found & Hrun & -> & Hnd & Hrange).
  split; [exact Hrun|]. split; [exact Hnd|].
  apply Hrange. repeat constructor; unfold i2c_address; lia.
Defined.

(** C5 (a failing bus is skipped).  When the bring-up or the scan of a
    configuration raises, the probe goes on with the configurations after it,
    from the addresses found before it, and returns the list so obtained: what
    was found before is kept and no error record is produced.  Scenario B:
    when bus configuration 0 yields [0x3C, 0x68] and bus configuration 1
    cannot be brought up, the probe returns [60, 104]. *)
Theorem i2c_failed_config_skipped :
  (forall (world : Type) (machine_pin : MachinePin world)
          (machine_i2c : MachineI2C world)
          (before after : list i2c_config) (config : i2c_config)
          (w w1 w2 : world) (found1 : list Z) (e : exn),
      i2c_loop before [] w = (Ret found1, w1) ->
      scan_bus config w1 = (Raise e, w2) ->
      exists found w3,
        i2c_loop after found1 w2 = (Ret found, w3)
        /\ scan_i2c_devices_over (before ++ config :: after) w
           = (Ret (VList (map VInt found)), w3)
        /\ (forall a, In a found1 -> In a found))
  /\ (forall (world : Type) (machine_pin : MachinePin world)
             (machine_i2c : MachineI2C world) (w w1 w2 : world) (e : exn),
         scan_bus (mkConfig 0 22 21) w = (Ret [60; 104], w1) ->
         scan_bus (mkConfig 1 25 26) w1 = (Raise e, w2) ->
         scan_i2c_devices w = (Ret (VList [VInt 60; VInt 104]), w2)).
Proof.
  split.
  - intros world machine_pin machine_i2c before after config w w1 w2 found1 e
      Hbefore Hfail.
    destruct (observe scan_bus after w2) as [obs w3] eqn:Hobs.
    exists (add_devices (List.concat (scanned obs)) found1), w3.
    pose proof (i2c_loop_observed after found1 w2 obs w3 Hobs) as Hafter.
    split; [exact Hafter|]. split.
    + unfold scan_i2c_devices_over. run_monad.
      rewrite i2c_loop_app, Hbefore, i2c_loop_step, Hfail, Hafter.
      reflexivity.
    + intros a. apply add_devices_keeps.
  - intros world machine_pin machine_i2c w w1 w2 e H0 H1.
    unfold scan_i2c_devices, scan_i2c_devices_over, i2c_configs. run_monad.
    rewrite i2c_loop_step, H0, i2c_loop_step, H1. reflexivity.
Qed.

(** C5, scenario B on a board: bus 0 reports [0x3C, 0x68] and bus 1 cannot
    be brought up; the probe returns [60, 104]. *)
Lemma i2c_failed_config_skipped_witness :
  scan_i2c_devices (machine_pin := board_pins_low)
    (machine_i2c := board_bus0_only) 0%nat
  = (Ret (VList [VInt 60; VInt 104]), 7%nat)
  /\ scan_i2c_devices_over (machine_pin := board_pins_low)
       (machine_i2c := board_bus0_only)
       [mkConfig 1 25 26; mkConfig 0 22 21] 0%nat
     = (Ret (VList [VInt 60; VInt 104]), 7%nat).
Proof.
  destruct i2c_failed_config_skipped as [Hskip HscenarioB]. split.
  - apply (HscenarioB nat board_pins_low board_bus0_only 0%nat 4%nat 7%nat
             (Exception "bus unavailable")); reflexivity.
  - destruct (Hskip nat board_pins_low board_bus0_only
                [] [mkConfig 0 22 21] (mkConfig 1 25 26)
                0%nat 0%nat 3%nat [] (Exception "bus unavailable")
                eq_refl eq_refl)
      as (found & w3 & Hafter & Hrun & _).
    injection Hafter as <- <-. exact Hrun.
Defined.

(** C7 (GPIO error shape).  When the access of every candidate pin raises,
    the probe returns the empty mapping.  On every board the probe returns a
    mapping that has no ["error"] key, so a fault of a pin access never turns
    the result into the error record: only a fault raised outside the per-pin
    [try] could reach the outer handler, and what that handler returns holds
    no pin label. *)
Theorem gpio_all_fail_empty_mapping :
  (forall (world : Type) (machine_pin : MachinePin world)
          (pins : list Z) (w w' : world) (obs : list (Z * outcome Z)),
      observe read_pin pins w = (obs, w') ->
      Forall (fun o => exists e, snd o = Raise e) obs ->
      get_gpio_states_over pins w = (Ret (VDict []), w'))
  /\ (forall (world : Type) (machine_pin : MachinePin world)
             (pins : list Z) (w : world),
         exists states w',
           get_gpio_states_over pins w = (Ret (VDict states), w')
           /\ dict_get states "error" = None
           /\ forall e, VDict states <> error_record e)
  /\ (forall (e : exn) (p : Z),
         exists entries,
           error_record e = VDict entries
           /\ dict_get entries (pin_label p) = None).
Proof.
  split; [|split].
  - intros world machine_pin pins w w' obs Hobs Hfail.
    rewrite (get_gpio_states_observed _ _ _ _ Hobs).
    replace (successes obs) with (@nil (Z * Z)); [reflexivity|].
    clear Hobs. induction Hfail as [|[p o] rest (e & He) _ IH];
      [reflexivity|].
    simpl in He. subst o. exact IH.
  - intros world machine_pin pins w.
    destruct (observe read_pin pins w) as [obs w'] eqn:Hobs.
    exists (gpio_collect [] (successes obs)), w'.
    split; [now apply get_gpio_states_observed|].
    split; [apply gpio_collect_no_error|].
    intros e Heq. unfold error_record in Heq. injection Heq as Heq.
    pose proof (gpio_collect_no_error (successes obs)) as Hnone.
    rewrite Heq in Hnone. discriminate.
  - intros e p. exists [("error", VStr (str e))].
    split; [reflexivity|].
    apply dict_get_None. simpl. intros [H|[]].
    symmetry in H. now apply pin_label_not_error in H.
Qed.

(** C7, on a board where no pin can be configured: the probe over the
    candidate pins returns [{}]. *)
Lemma gpio_all_fail_empty_mapping_witness :
  get_gpio_states (machine_pin := board_no_pins) 0%nat
  = (Ret (VDict []), 15%nat).
Proof.
  apply (proj1 gpio_all_fail_empty_mapping nat board_no_pins pin_numbers
           0%nat 15%nat
           (fst (observe (read_pin (machine_pin := board_no_pins))
                   pin_numbers 0%nat))).
  - reflexivity.
  - repeat constructor; eexists; reflexivity.
Defined.

(* ================================================================== *)
(** * Claims on the Wi-Fi probe *)
(* ================================================================== *)

(** C3 (network records), as amended.  When the scan returns [networks] and
    every SSID that is present decodes, the probe returns one record per
    network, in scan order, and the record of a network holds: its SSID as
    text (empty when the SSID bytes are absent), its BSSID as colon-separated
    two-digit lowercase hex, its channel and rssi, and the label of its
    security code in the table 0 Open, 1 WEP, 2 WPA-PSK, 3 WPA2-PSK,
    4 WPA/WPA2-PSK, every other code being labelled ["Unknown"]. *)
Theorem wifi_records_as_specified
    (world : Type) (network : NetworkWLAN world) (codec : Utf8Codec)
    (w w1 : world) (networks : list scan_entry) :
  wifi_scan_call w = (Ret networks, w1) ->
  Forall (fun net => exists ssid_text, ssid_reads net ssid_text) networks ->
  exists records,
    scan_wifi_networks w = (Ret (VList records), w1)
    /\ Forall2 describes networks records
    /\ Forall2 (fun net record =>
                  forall entries, record = VDict entries ->
                  ~ (0 <= net_security net <= 4) ->
                  dict_get entries "security" = Some (VStr "Unknown"))
               networks records.
Proof.
  intros Hscan Hssid.
  assert (Hrecords : exists records, Forall2 describes networks records).
  { clear Hscan. induction Hssid as [|net nets (s & Hs) _ (recs & IH)].
    - exists []. constructor.
    - exists (network_record net s :: recs). constructor; [|assumption].
      exists s. auto. }
  destruct Hrecords as (records & Hrecords).
  exists records. split; [|split].
  - rewrite scan_wifi_networks_unfold, Hscan.
    now rewrite (wifi_loop_describes _ _ _ _ Hrecords).
  - assumption.
  - clear Hscan Hssid.
    induction Hrecords as [|net record nets recs (s & _ & ->) _ IH];
      constructor; [|assumption].
    intros entries [= <-] Hcode. simpl.
    now rewrite security_label_unknown.
Qed.

(** C3, on a scan that finds a WPA2 network, a hidden open network and a
    network with security code 7 (scenario C). *)
Lemma wifi_records_as_specified_witness :
  scan_wifi_networks (network := radio [net_home; net_hidden_open; net_code7])
    (codec := micropython_codec) 0%nat
  = (Ret (VList
            [ VDict [ ("ssid", VStr "home");
                      ("bssid", VStr "00:1a:2b:3c:4d:5e");
                      ("channel", VInt 6);
                      ("rssi", VInt (-48));
                      ("security", VStr "WPA2-PSK") ];
              VDict [ ("ssid", VStr EmptyString);
                      ("bssid", VStr "de:ad:be:ef:00:01");
                      ("channel", VInt 1);
                      ("rssi", VInt (-70));
                      ("security", VStr "Open") ];
              VDict [ ("ssid", VStr "lab");
                      ("bssid", VStr "0a:0b:0c:0d:0e:0f");
                      ("channel", VInt 11);
                      ("rssi", VInt (-81));
                      ("security", VStr "Unknown") ] ]),
     3%nat).
Proof.
  destruct (wifi_records_as_specified nat
              (radio [net_home; net_hidden_open; net_code7])
              micropython_codec 0%nat 3%nat
              [net_home; net_hidden_open; net_code7] eq_refl)
    as (records & Hrun & Hdesc & _).
  - repeat constructor.
    + exists "home". reflexivity.
    + exists EmptyString. reflexivity.
    + exists "lab". reflexivity.
  - inversion Hdesc as [|? ? ? ? (s1 & Hs1 & ->) Hd1]; subst.
    inversion Hd1 as [|? ? ? ? (s2 & Hs2 & ->) Hd2]; subst.
    inversion Hd2 as [|? ? ? ? (s3 & Hs3 & ->) Hd3]; subst.
    inversion Hd3; subst.
    vm_compute in Hs1, Hs2, Hs3.
    injection Hs1 as <-. subst s2. injection Hs3 as <-.
    exact Hrun.
Defined.

(** C3 as stated, for every tuple the scan returns, fails: a scan finds
    [net_home], whose SSID decodes to "home", and a network whose SSID is not
    UTF-8; the probe returns the error record, so no record is produced for
    [net_home]. *)
Lemma wifi_records_counterexample :
  wifi_scan_call (network := radio [net_home; net_garbled]) 0%nat
  = (Ret [net_home; net_garbled], 3%nat)
  /\ ssid_reads (codec := micropython_codec) net_home "home"
  /\ scan_wifi_networks (network := radio [net_home; net_garbled])
       (codec := micropython_codec) 0%nat
     = (Ret (VDict [("error", VStr EmptyString)]), 3%nat)
  /\ ~ (forall net ssid_text,
           In net [net_home; net_garbled] ->
           ssid_reads (codec := micropython_codec) net ssid_text ->
           exists records w',
             scan_wifi_networks (network := radio [net_home; net_garbled])
               (codec := micropython_codec) 0%nat
             = (Ret (VList records), w')
             /\ In (network_record net ssid_text) records).
Proof.
  repeat split.
  intros Hclaim.
  destruct (Hclaim net_home "home") as (records & w' & Hrun & _).
  - simpl. auto.
  - reflexivity.
  - discriminate Hrun.
Qed.

(** Each network either formats or has an SSID that cannot be decoded. *)
Lemma ssid_reads_or_undecodable {codec : Utf8Codec} (net : scan_entry) :
  (exists ssid_text, ssid_reads net ssid_text)
  \/ (exists e, ssid_undecodable net e).
Proof.
  unfold ssid_reads, ssid_undecodable.
  destruct (net_ssid net) as [|b bs] eqn:Hssid; [left; eauto|].
  destruct (bytes_decode_utf8 (b :: bs)) as [s|e]; [left; eauto|].
  right. exists e. split; [discriminate|reflexivity].
Qed.

(** A scan with an undecodable SSID splits at the first such network. *)
Lemma first_undecodable {codec : Utf8Codec} (networks : list scan_entry)
    (bad : scan_entry) (e : exn) :
  In bad networks -> ssid_undecodable bad e ->
  exists good first rest e',
    networks = (good ++ first :: rest)%list
    /\ Forall (fun net => exists ssid_text, ssid_reads net ssid_text) good
    /\ ssid_undecodable first e'.
Proof.
  intros Hin Hbad. induction networks as [|net nets IH]; [contradiction|].
  destruct (ssid_reads_or_undecodable net) as [Hreads|(e' & Hnet)].
  - destruct Hin as [->|Hin].
    + destruct Hreads as (s & Hs). destruct Hbad as [Hne Hraise].
      unfold ssid_reads in Hs. destruct (net_ssid bad); congruence.
    + destruct (IH Hin) as (good & first & rest & e' & -> & Hgood & Hfirst).
      exists (net :: good), first, rest, e'. auto.
  - exists [], net, nets, e'. auto.
Qed.

(** C10 (no per-network containment).  When the scan returns a list in which
    the SSID of some network cannot be decoded, the probe returns an error
    record, the one of the first decoding fault in scan order, and no list of
    records: the networks that format without a fault are not reported. *)
Theorem wifi_one_bad_record_discards_all
    (world : Type) (network : NetworkWLAN world) (codec : Utf8Codec)
    (w w1 : world) (networks : list scan_entry) (bad : scan_entry) (e : exn) :
  wifi_scan_call w = (Ret networks, w1) ->
  In bad networks ->
  ssid_undecodable bad e ->
  exists good first rest e',
    networks = (good ++ first :: rest)%list
    /\ Forall (fun net => exists ssid_text, ssid_reads net ssid_text) good
    /\ ssid_undecodable first e'
    /\ scan_wifi_networks w = (Ret (error_record e'), w1)
    /\ forall records, error_record e' <> VList records.
Proof.
  intros Hscan Hin Hbad.
  destruct (first_undecodable networks bad e Hin Hbad)
    as (good & first & rest & e' & -> & Hgood & Hfirst).
  exists good, first, rest, e'.
  repeat split; try assumption; try apply Hfirst; [|discriminate].
  rewrite scan_wifi_networks_unfold, Hscan.
  now rewrite (wifi_loop_undecodable _ _ _ _ _ _ Hgood Hfirst).
Qed.

(** C10, on a scan whose second network has the SSID byte 0xFF: the probe
    returns an error record, although the first and third networks format
    without a fault. *)
Lemma wifi_one_bad_record_discards_all_witness :
  exists e',
    scan_wifi_networks (network := radio [net_home; net_garbled; net_code7])
      (codec := micropython_codec) 0%nat
    = (Ret (error_record e'), 3%nat).
Proof.
  destruct (wifi_one_bad_record_discards_all nat
              (radio [net_home; net_garbled; net_code7]) micropython_codec
              0%nat 3%nat [net_home; net_garbled; net_code7] net_garbled
              (Exception EmptyString))
    as (good & first & rest & e' & _ & _ & _ & Hrun & _).
  - reflexivity.
  - simpl. auto.
  - split; [discriminate|reflexivity].
  - exists e'. exact Hrun.
Defined.

(* ================================================================== *)
(** * Claims on the system probe *)
(* ================================================================== *)

(** X16.  The error path of the system probe: when reading the metrics
    raises [e] and the clock, read again in the handler, shows [t], the probe
    returns the record with the two fields [error = str(e)] and
    [timestamp = t].  When the metrics are read, the record returned holds
    the [timestamp] read with them. *)
Lemma get_system_metrics_timestamp :
  (forall (world : Type) (system : SystemInfo world)
          (w w1 w2 : world) (e : exn) (t : Z),
      collect_metrics w = (Raise e, w1) ->
      time_time w1 = (Ret t, w2) ->
      get_system_metrics w
      = (Ret (VDict [ ("error", VStr (str e)); ("timestamp", VInt t) ]), w2))
  /\ (forall (world : Type) (system : SystemInfo world)
             (w w1 w2 w3 w4 : world) (free allocated freq timestamp : Z),
         gc_mem_free w = (Ret free, w1) ->
         gc_mem_alloc w1 = (Ret allocated, w2) ->
         machine_freq w2 = (Ret freq, w3) ->
         time_time w3 = (Ret timestamp, w4) ->
         exists metrics w',
           get_system_metrics w = (Ret (VDict metrics), w')
           /\ dict_get metrics "timestamp" = Some (VInt timestamp)).
Proof.
  split.
  - intros world system w w1 w2 e t Hcollect Htime.
    rewrite get_system_metrics_unfold, Hcollect. run_monad.
    now rewrite Htime.
  - intros world system w w1 w2 w3 w4 free allocated freq timestamp
      H1 H2 H3 H4.
    rewrite get_system_metrics_unfold.
    rewrite (collect_metrics_reads _ _ _ _ _ _ _ _ _ H1 H2 H3 H4).
    unfold add_temperature. run_monad.
    destruct machine_has_temperature; [|eauto].
    destruct (machine_temperature w4) as [[temp|e] w5]; eauto.
Qed.

(** X16, on a board whose clock frequency cannot be read: started at clock
    reading 5, the probe returns the error record stamped 8, the reading
    taken after the fault. *)
Example get_system_metrics_timestamp_example :
  get_system_metrics (system := board_freq_fault) 5%nat
  = (Ret (VDict [ ("error", VStr "freq unavailable");
                  ("timestamp", VInt 8) ]), 9%nat)
  /\ exists metrics w',
       get_system_metrics (system := board_with_sensor) 5%nat
       = (Ret (VDict metrics), w')
       /\ dict_get metrics "timestamp" = Some (VInt 8).
Proof.
  destruct get_system_metrics_timestamp as [Herror Hsuccess]. split.
  - apply (Herror nat board_freq_fault 5%nat 8%nat 9%nat
             (Exception "freq unavailable") 8); reflexivity.
  - apply (Hsuccess nat board_with_sensor 5%nat 6%nat 7%nat 8%nat 9%nat
             98304 12800 160000000 8); reflexivity.
Defined.

(** C9 (temperature omitted).  When the four metrics are read and the
    platform has no temperature reading, or reading it raises, the probe
    returns the record with [memory.free], [memory.allocated], [freq] and
    [timestamp] and without a [temp] field. *)
Theorem system_temperature_omitted
    (world : Type) (system : SystemInfo world)
    (w w1 w2 w3 w4 : world) (free allocated freq timestamp : Z) :
  gc_mem_free w = (Ret free, w1) ->
  gc_mem_alloc w1 = (Ret allocated, w2) ->
  machine_freq w2 = (Ret freq, w3) ->
  time_time w3 = (Ret timestamp, w4) ->
  machine_has_temperature = false
  \/ (exists e w5, machine_temperature w4 = (Raise e, w5)) ->
  exists metrics w',
    get_system_metrics w = (Ret (VDict metrics), w')
    /\ metrics = [ ("memory", VDict [ ("free", VInt free);
                                      ("allocated", VInt allocated) ]);
                   ("freq", VInt freq);
                   ("timestamp", VInt timestamp) ]
    /\ dict_get metrics "temp" = None.
Proof.
  intros H1 H2 H3 H4 Htemp.
  exists (metrics_record free allocated freq timestamp).
  assert (Hadd : exists w',
             add_temperature (metrics_record free allocated freq timestamp) w4
             = (Ret (metrics_record free allocated freq timestamp), w')).
  { destruct machine_has_temperature eqn:Hhas.
    - destruct Htemp as [Hno|(e & w5 & Hraise)]; [discriminate|].
      exists w5. now apply (add_temperature_fault _ _ e).
    - exists w4. now apply add_temperature_absent. }
  destruct Hadd as (w' & Hadd). exists w'.
  split; [|split; reflexivity].
  rewrite get_system_metrics_unfold.
  rewrite (collect_metrics_reads _ _ _ _ _ _ _ _ _ H1 H2 H3 H4).
  now rewrite Hadd.
Qed.

(** C9, scenario D: on a board without a sensor and on a board whose sensor
    cannot be read, the record has the four metrics and no [temp]. *)
Lemma system_temperature_omitted_witness :
  fst (get_system_metrics (system := board_no_sensor) 5%nat)
  = Ret (VDict [ ("memory", VDict [ ("free", VInt 98304);
                                    ("allocated", VInt 12800) ]);
                 ("freq", VInt 160000000);
                 ("timestamp", VInt 8) ])
  /\ fst (get_system_metrics (system := board_sensor_fault) 5%nat)
     = Ret (VDict [ ("memory", VDict [ ("free", VInt 98304);
                                       ("allocated", VInt 12800) ]);
                    ("freq", VInt 160000000);
                    ("timestamp", VInt 8) ]).
Proof.
  split.
  - destruct (system_temperature_omitted nat board_no_sensor
                5%nat 6%nat 7%nat 8%nat 9%nat 98304 12800 160000000 8
                eq_refl eq_refl eq_refl eq_refl (or_introl eq_refl))
      as (metrics & w' & Hrun & -> & _).
    now rewrite Hrun.
  - destruct (system_temperature_omitted nat board_sensor_fault
                5%nat 6%nat 7%nat 8%nat 9%nat 98304 12800 160000000 8
                eq_refl eq_refl eq_refl eq_refl
                (or_intror (ex_intro _ (Exception "sensor fault")
                              (ex_intro _ 10%nat eq_refl))))
      as (metrics & w' & Hrun & -> & _).
    now rewrite Hrun.
Defined.

(* ================================================================== *)
(** * The probe boundary and the marker line *)
(* ================================================================== *)

(** X15.  The only way out of the system probe other than a return: reading
    the metrics raises, and then the clock read in the handler raises as
    well. *)
Lemma get_system_metrics_outcomes
    {world : Type} {system : SystemInfo world} (w : world) :
  (exists payload w', get_system_metrics w = (Ret payload, w'))
  \/ (exists e w1 e' w2,
         collect_metrics w = (Raise e, w1)
         /\ time_time w1 = (Raise e', w2)
         /\ get_system_metrics w = (Raise e', w2)).
Proof.
  rewrite get_system_metrics_unfold.
  destruct (collect_metrics w) as [[metrics|e] w1] eqn:Hcollect.
  - left. destruct (add_temperature_returns metrics w1) as (m & w2 & ->).
    eauto.
  - run_monad. destruct (time_time w1) as [[t|e'] w2] eqn:Htime.
    + left. eauto.
    + right. exists e, w1, e', w2. auto.
Qed.

(** X20.  The GPIO script writes exactly one marker line, whatever the board
    does: the console gains [__GPIO_STATE__], the serialized result of the
    probe and a line break, and the line has no other line break in it. *)
Lemma send_gpio_states_one_line
    {world : Type} {machine_pin : MachinePin world} (c : console world) :
  exists payload w,
    get_gpio_states (dev c) = (Ret payload, w)
    /\ send_gpio_states c
       = (Ret tt,
          mkConsole w (stdout c ++ marker_line "__GPIO_STATE__" payload
                                ++ String newline EmptyString))
    /\ has_newline (marker_line "__GPIO_STATE__" payload) = false.
Proof.
  destruct (get_gpio_states_returns pin_numbers (dev c)) as (states & w & H).
  exists (VDict states), w. split; [exact H|]. split.
  - now apply send_returns.
  - apply marker_line_no_newline. simpl. auto.
Qed.

(** X21.  The I2C script writes exactly one marker line, whatever the board
    does: [__I2C_DEVICES__], the serialized result and a line break. *)
Lemma send_i2c_scan_one_line
    {world : Type} {machine_pin : MachinePin world}
    {machine_i2c : MachineI2C world} (c : console world) :
  exists payload w,
    scan_i2c_devices (dev c) = (Ret payload, w)
    /\ send_i2c_scan c
       = (Ret tt,
          mkConsole w (stdout c ++ marker_line "__I2C_DEVICES__" payload
                                ++ String newline EmptyString))
    /\ has_newline (marker_line "__I2C_DEVICES__" payload) = false.
Proof.
  destruct (scan_i2c_devices_returns i2c_configs (dev c)) as (found & w & H).
  exists (VList (map VInt found)), w. split; [exact H|]. split.
  - now apply send_returns.
  - apply marker_line_no_newline. simpl. auto.
Qed.

(** X22.  The Wi-Fi script writes exactly one marker line, whatever the
    board does and whatever bytes the SSIDs hold: [__WIFI_SCAN__], the
    serialized result and a line break. *)
Lemma send_wifi_scan_one_line
    {world : Type} {network : NetworkWLAN world} {codec : Utf8Codec}
    (c : console world) :
  exists payload w,
    scan_wifi_networks (dev c) = (Ret payload, w)
    /\ send_wifi_scan c
       = (Ret tt,
          mkConsole w (stdout c ++ marker_line "__WIFI_SCAN__" payload
                                ++ String newline EmptyString))
    /\ has_newline (marker_line "__WIFI_SCAN__" payload) = false.
Proof.
  destruct (scan_wifi_networks_returns (dev c)) as (payload & w & H).
  exists payload, w. split; [exact H|]. split.
  - now apply send_returns.
  - apply marker_line_no_newline. simpl. auto.
Qed.

(** The system script writes its marker line when the probe returns, and
    nothing when the probe raises. *)
Lemma send_metrics_one_line
    {world : Type} {system : SystemInfo world} (c : console world)
    (payload : value) (w : world) :
  get_system_metrics (dev c) = (Ret payload, w) ->
  send_metrics c
  = (Ret tt,
     mkConsole w (stdout c ++ marker_line "__MONITOR_DATA__" payload
                           ++ String newline EmptyString))
  /\ has_newline (marker_line "__MONITOR_DATA__" payload) = false.
Proof.
  intros H. split.
  - now apply send_returns.
  - apply marker_line_no_newline. simpl. auto.
Qed.

Lemma send_metrics_silent
    {world : Type} {system : SystemInfo world} (c : console world)
    (e : exn) (w : world) :
  get_system_metrics (dev c) = (Raise e, w) ->
  send_metrics c = (Raise e, mkConsole w (stdout c)).
Proof.
  intros H. now apply send_raises.
Qed.

(** C6 (nothing is raised past the probe boundary), at the input where it
    fails: on a port whose [time.time()] raises on every call, the first
    fault is caught by the [except Exception] of [get_system_metrics], the
    handler calls [time.time()] again, and that second fault leaves the probe
    function: the caller gets an exception, not a payload. *)
Theorem get_system_metrics_clock_fault_escapes (calls : nat) :
  get_system_metrics (system := board_no_clock) calls
  = (Raise (Exception "'module' object has no attribute 'time'"), (5 + calls)%nat)
  /\ forall payload w,
       get_system_metrics (system := board_no_clock) calls <> (Ret payload, w).
Proof.
  split; [reflexivity|].
  intros payload w H. discriminate H.
Qed.

(** C8 (error record of the system probe), at the input where it fails: on
    the same port reading the metrics raises before the record is complete,
    the clock read of the error path raises too, and the probe ends with that
    exception: no record with [error] and [timestamp] is returned. *)
Theorem get_system_metrics_clock_fault_no_record (calls : nat) :
  collect_metrics (system := board_no_clock) calls
  = (Raise (Exception "'module' object has no attribute 'time'"), (4 + calls)%nat)
  /\ time_time (SystemInfo := board_no_clock) (4 + calls)%nat
     = (Raise (Exception "'module' object has no attribute 'time'"), (5 + calls)%nat)
  /\ forall entries w,
       get_system_metrics (system := board_no_clock) calls
       <> (Ret (VDict entries), w).
Proof.
  repeat split. intros entries w H. discriminate H.
Qed.

(** C1 (one marker line per invocation), at the input where it fails: on the
    same port [send_metrics] ends with the exception of its probe and the
    console text is what it was before the call: no [__MONITOR_DATA__] line
    is written. *)
Theorem send_metrics_clock_fault_writes_nothing (c : console nat) :
  send_metrics (system := board_no_clock) c
  = (Raise (Exception "'module' object has no attribute 'time'"),
     mkConsole (5 + dev c)%nat (stdout c)).
Proof.
  apply send_metrics_silent. reflexivity.
Qed.

(* ================================================================== *)
(** * More on gpio_monitor.py *)
(* ================================================================== *)


Lemma dict_set_keys_NoDup (d : dict) (k : string) (v : value) :
  NoDup (dict_keys d) -> NoDup (dict_keys (dict_set d k v)).
Proof.
  induction d as [|[k' x] rest IH]; simpl; intros Hnd.
  - repeat constructor. intros [].
  - inversion Hnd as [|? ? Hk' Hrest]; subst.
    destruct (String.eqb_spec k' k) as [->|Hk]; simpl.
    + now constructor.
    + constructor; [|now apply IH].
      intros Hin. apply dict_set_keys in Hin. destruct Hin; [congruence|tauto].
Qed.

Lemma dict_set_entries (d : dict) (k : string) (v : value)
    (k' : string) (v' : value) :
  In (k', v') (dict_set d k v) -> (k', v') = (k, v) \/ In (k', v') d.
Proof.
  induction d as [|[k0 x] rest IH]; simpl.
  - intros [H|[]]. left. now symmetry.
  - destruct (String.eqb_spec k0 k) as [->|Hk]; simpl.
    + intros [H|H]; [left; now symmetry|tauto].
    + intros [H|H]; [tauto|]. apply IH in H. tauto.
Qed.

Lemma dict_set_length (d : dict) (k : string) (v : value) :
  (List.length (dict_set d k v) <= S (List.length d))%nat.
Proof.
  induction d as [|[k0 x] rest IH]; simpl; [lia|].
  destruct (String.eqb k0 k); simpl; lia.
Qed.


Lemma gpio_collect_invariant (reads : list (Z * Z)) (states : dict) :
  NoDup (dict_keys states) ->
  NoDup (dict_keys (gpio_collect states reads))
  /\ (List.length (gpio_collect states reads) <= List.length states + List.length reads)%nat
  /\ (forall k v, In (k, v) (gpio_collect states reads) ->
                  In (k, v) states \/ exists r, In r reads /\ (k, v) = gpio_entry r).
Proof.
  revert states. unfold gpio_collect.
  induction reads as [|[p x] rest IH]; intros states Hnd; simpl.
  - repeat split; [assumption|lia|tauto].
  - destruct (IH (dict_set states (pin_label p) (VInt x))
                (dict_set_keys_NoDup _ _ _ Hnd)) as (H1 & H2 & H3).
    repeat split; [assumption| |].
    + pose proof (dict_set_length states (pin_label p) (VInt x)). lia.
    + intros k v Hin. apply H3 in Hin. destruct Hin as [Hin|(r & Hr & Heq)].
      * apply dict_set_entries in Hin. destruct Hin as [Heq|Hin]; [|tauto].
        right. exists (p, x). auto.
      * right. exists r. auto.
Qed.

Lemma successes_length {U A : Type} (obs : list (U * outcome A)) :
  (List.length (successes obs) <= List.length obs)%nat.
Proof.
  induction obs as [|[u [a|e]] rest IH]; simpl; lia.
Qed.



(** X2.  Whatever the candidate list and the board, the GPIO probe returns a
    mapping whose keys are pairwise distinct, which has at most one entry per
    candidate, and each of whose entries is the label of a candidate pin with
    a level that pin was read at. *)
Theorem gpio_mapping_from_reads
    (world : Type) (machine_pin : MachinePin world)
    (pins : list Z) (w : world) :
  exists states w',
    get_gpio_states_over pins w = (Ret (VDict states), w')
    /\ NoDup (dict_keys states)
    /\ (List.length states <= List.length pins)%nat
    /\ forall k v, In (k, v) states ->
         exists p level,
           In p pins /\ k = pin_label p /\ v = VInt level
           /\ In (p, Ret level) (fst (observe read_pin pins w)).
Proof.
  destruct (observe read_pin pins w) as [obs w'] eqn:Hobs.
  exists (gpio_collect [] (successes obs)), w'.
  destruct (gpio_collect_invariant (successes obs) []) as (H1 & H2 & H3);
    [constructor|].
  pose proof (observe_units read_pin pins w) as Hunits.
  rewrite Hobs in Hunits. simpl in Hunits.
  split; [now apply get_gpio_states_observed|].
  split; [assumption|]. split.
  - pose proof (successes_length obs). simpl in H2.
    rewrite <- Hunits, List.length_map. lia.
  - intros k v Hin. apply H3 in Hin.
    destruct Hin as [[]|([p level] & Hr & Heq)].
    injection Heq as -> ->. exists p, level.
    apply successes_in in Hr. simpl.
    repeat split; [|assumption].
    rewrite <- Hunits. change p with (fst (p, @Ret Z level)).
    now apply in_map.
Qed.

(** X3.  Labels of distinct pins are distinct, and no pin label is the key
    ["error"], so a pin mapping cannot be mistaken for the error record. *)
Theorem pin_labels_unambiguous :
  (forall p q : Z, pin_label p = pin_label q -> p = q)
  /\ (forall p : Z, pin_label p <> "error").
Proof.
  split; [exact pin_label_inj|exact pin_label_not_error].
Qed.

(* ================================================================== *)
(** * More on i2c_scanner.py *)
(* ================================================================== *)

Lemma first_occurrences_from_NoDup (earlier stream : list Z) :
  NoDup (first_occurrences_from earlier stream).
Proof.
  revert earlier. induction stream as [|a rest IH]; intros earlier; simpl;
    [constructor|].
  destruct (mem a earlier); simpl; [apply IH|].
  constructor; [|apply IH].
  rewrite first_occurrences_from_in, in_app_iff. simpl. tauto.
Qed.

Lemma scanned_all_failed {U : Type} (obs : list (U * outcome (list Z))) :
  Forall (fun o => exists e, snd o = Raise e) obs -> scanned obs = [].
Proof.
  unfold scanned. intros H.
  induction H as [|[u o] rest (e & He) _ IH]; [reflexivity|].
  simpl in He. subst o. exact IH.
Qed.

Lemma NoDup_addresses_length (l : list Z) :
  NoDup l -> Forall i2c_address l -> (List.length l <= 128)%nat.
Proof.
  intros Hnd Hrange.
  change 128%nat with (List.length (map Z.of_nat (seq 0 128))).
  apply NoDup_incl_length; [assumption|].
  intros a Ha. rewrite Forall_forall in Hrange.
  specialize (Hrange a Ha). unfold i2c_address in Hrange.
  apply in_map_iff. exists (Z.to_nat a). split; [lia|].
  apply in_seq. lia.
Qed.

(** X4.  When the bring-up or the scan of every configuration raises, the
    I2C probe returns the empty list, not an error record. *)
Theorem i2c_all_fail_empty_list
    (world : Type) (machine_pin : MachinePin world)
    (machine_i2c : MachineI2C world)
    (configs : list i2c_config) (w w' : world)
    (obs : list (i2c_config * outcome (list Z))) :
  observe scan_bus configs w = (obs, w') ->
  Forall (fun o => exists e, snd o = Raise e) obs ->
  scan_i2c_devices_over configs w = (Ret (VList []), w').
Proof.
  intros Hobs Hfail.
  rewrite (scan_i2c_devices_observed _ _ _ _ Hobs).
  now rewrite (scanned_all_failed _ Hfail).
Qed.

(** X4, on a board where no pin can be configured, so that neither bus comes
    up: the probe returns [[]]. *)
Lemma i2c_all_fail_empty_list_witness :
  scan_i2c_devices (machine_pin := board_no_pins)
    (machine_i2c := board_two_buses) 0%nat
  = (Ret (VList []), 2%nat).
Proof.
  apply (i2c_all_fail_empty_list nat board_no_pins board_two_buses
           i2c_configs 0%nat 2%nat
           [ (mkConfig 0 22 21, Raise (Exception "invalid pin"));
             (mkConfig 1 25 26, Raise (Exception "invalid pin")) ]).
  - reflexivity.
  - repeat constructor; eexists; reflexivity.
Defined.

(** X5.  Whatever the board does, the I2C probe returns a list of integers:
    it never raises and never returns the error record. *)
Theorem scan_i2c_devices_always_list
    (world : Type) (machine_pin : MachinePin world)
    (machine_i2c : MachineI2C world)
    (configs : list i2c_config) (w : world) :
  exists found w',
    scan_i2c_devices_over configs w = (Ret (VList (map VInt found)), w')
    /\ forall e, VList (map VInt found) <> error_record e.
Proof.
  destruct (observe scan_bus configs w) as [obs w'] eqn:Hobs.
  exists (add_devices (List.concat (scanned obs)) []), w'.
  split; [now apply scan_i2c_devices_observed|discriminate].
Qed.

(** X6.  When every scan yields addresses in [0, 127], the list the I2C
    probe returns has at most 128 entries, however many configurations
    there are. *)
Theorem i2c_result_at_most_128
    (world : Type) (machine_pin : MachinePin world)
    (machine_i2c : MachineI2C world)
    (configs : list i2c_config) (w w' : world)
    (obs : list (i2c_config * outcome (list Z))) :
  observe scan_bus configs w = (obs, w') ->
  Forall (Forall i2c_address) (scanned obs) ->
  exists found,
    scan_i2c_devices_over configs w = (Ret (VList (map VInt found)), w')
    /\ (List.length found <= 128)%nat.
Proof.
  intros Hobs Hrange.
  exists (add_devices (List.concat (scanned obs)) []).
  split; [now apply scan_i2c_devices_observed|].
  apply NoDup_addresses_length.
  - apply add_devices_NoDup. constructor.
  - apply Forall_forall. intros a Ha.
    apply add_devices_only in Ha. destruct Ha as [[]|Ha].
    apply in_concat in Ha. destruct Ha as (devices & Hd & Ha).
    rewrite Forall_forall in Hrange. specialize (Hrange _ Hd).
    rewrite Forall_forall in Hrange. now apply Hrange.
Qed.

(** X6, on the board with two working buses. *)
Lemma i2c_result_at_most_128_witness :
  exists found,
    scan_i2c_devices (machine_pin := board_pins_low)
      (machine_i2c := board_two_buses) 0%nat
    = (Ret (VList (map VInt found)), 8%nat)
    /\ (List.length found <= 128)%nat.
Proof.
  apply (i2c_result_at_most_128 nat board_pins_low board_two_buses
           i2c_configs 0%nat 8%nat
           [ (mkConfig 0 22 21, Ret [60; 104]);
             (mkConfig 1 25 26, Ret [104; 32; 60]) ]).
  - reflexivity.
  - repeat constructor; unfold i2c_address; lia.
Defined.

(** X7.  A bus that reports only addresses already found changes nothing:
    the list found so far goes on to the next configuration as it is. *)
Theorem i2c_known_devices_change_nothing
    (world : Type) (machine_pin : MachinePin world)
    (machine_i2c : MachineI2C world)
    (config : i2c_config) (rest : list i2c_config)
    (found devices : list Z) (w w1 : world) :
  scan_bus config w = (Ret devices, w1) ->
  (forall a, In a devices -> In a found) ->
  add_devices devices found = found
  /\ i2c_loop (config :: rest) found w = i2c_loop rest found w1.
Proof.
  intros Hscan Hknown.
  assert (Hsame : add_devices devices found = found).
  { clear Hscan. induction devices as [|d ds IH]; simpl; [reflexivity|].
    rewrite not_in_mem.
    assert (E : mem d found = true) by (apply mem_In, Hknown; simpl; auto).
    rewrite E. simpl. apply IH. intros a Ha. apply Hknown. simpl. auto. }
  split; [assumption|].
  now rewrite i2c_loop_step, Hscan, Hsame.
Qed.

(** X7, on the board with two working buses, once 60, 104 and 32 are found:
    bus 1, which reports [104, 32, 60], leaves the list as it is. *)
Lemma i2c_known_devices_change_nothing_witness :
  i2c_loop (machine_pin := board_pins_low) (machine_i2c := board_two_buses)
    [mkConfig 1 25 26] [60; 104; 32] 0%nat
  = (Ret [60; 104; 32], 4%nat).
Proof.
  destruct (i2c_known_devices_change_nothing nat board_pins_low
              board_two_buses (mkConfig 1 25 26) [] [60; 104; 32]
              [104; 32; 60] 0%nat 4%nat eq_refl) as [_ Hloop].
  - simpl. intuition.
  - rewrite Hloop. reflexivity.
Defined.

(** X8.  The inner loop only appends: the addresses already found keep
    their places, and what is appended is, without repetition, exactly the
    addresses of the scan that were not found before. *)
Theorem add_devices_appends_new (devices found : list Z) :
  exists added,
    add_devices devices found = (found ++ added)%list
    /\ NoDup added
    /\ forall a, In a added <-> In a devices /\ ~ In a found.
Proof.
  exists (first_occurrences_from found devices).
  split; [|split].
  - apply add_devices_first_occurrences. tauto.
  - apply first_occurrences_from_NoDup.
  - intros a. apply first_occurrences_from_in.
Qed.

(* ================================================================== *)
(** * More on wifi_scanner.py *)
(* ================================================================== *)

Lemma join_cons (sep p : string) (q : string) (rest : list string) :
  join sep (p :: q :: rest) = p ++ sep ++ join sep (q :: rest).
Proof. reflexivity. Qed.

Lemma string_app_nil_r (a : string) : a ++ EmptyString = a.
Proof.
  induction a as [|c a IH]; simpl; [reflexivity|now rewrite IH].
Qed.

Lemma string_app_assoc (a b c : string) : (a ++ b) ++ c = a ++ b ++ c.
Proof.
  induction a as [|x a IH]; simpl; [reflexivity|now rewrite IH].
Qed.

Lemma string_length_app (a b : string) :
  String.length (a ++ b) = (String.length a + String.length b)%nat.
Proof.
  induction a as [|c a IH]; simpl; [reflexivity|now rewrite IH].
Qed.

Lemma all_chars_app (p : ascii -> bool) (a b : string) :
  all_chars p (a ++ b) = all_chars p a && all_chars p b.
Proof.
  induction a as [|c a IH]; simpl; [reflexivity|].
  now rewrite IH, andb_assoc.
Qed.

(** What a host reads back after one rendered byte. *)
Lemma parse_colon_hex_byte (b : byte) (s : string) :
  parse_colon_hex (format_02x b ++ s)
  = match s with
    | EmptyString => Some [b]
    | String sep rest =>
        if Ascii.eqb sep ":"
        then option_map (cons b) (parse_colon_hex rest)
        else None
    end.
Proof.
  destruct b; reflexivity.
Qed.

Lemma format_02x_shape (b : byte) :
  String.length (format_02x b) = 2%nat
  /\ all_chars is_bssid_char (format_02x b) = true.
Proof.
  destruct b; split; reflexivity.
Qed.

(** X9.  The BSSID text of [n] bytes has [3 n - 1] characters (17 for a
    six-byte BSSID), all of them lowercase hexadecimal digits or colons. *)
Theorem bssid_text_shape (bs : list byte) :
  String.length (join ":" (map format_02x bs)) = (3 * List.length bs - 1)%nat
  /\ all_chars is_bssid_char (join ":" (map format_02x bs)) = true.
Proof.
  induction bs as [|b rest [IHlen IHchars]]; [split; reflexivity|].
  destruct (format_02x_shape b) as [Hlen Hchars].
  destruct rest as [|b' rest]; [split; assumption|].
  cbn [map]. cbn [map] in IHlen, IHchars. rewrite join_cons.
  split.
  - rewrite !string_length_app, Hlen, IHlen. simpl. lia.
  - rewrite !all_chars_app, Hchars, IHchars. reflexivity.
Qed.

(** X10.  The BSSID text determines the bytes: reading the text back gives
    the bytes it was rendered from, so different BSSIDs have different
    texts. *)
Theorem bssid_text_round_trip :
  (forall bs : list byte,
      parse_colon_hex (join ":" (map format_02x bs)) = Some bs)
  /\ (forall bs bs' : list byte,
         join ":" (map format_02x bs) = join ":" (map format_02x bs') ->
         bs = bs').
Proof.
  assert (Hparse : forall bs : list byte,
             parse_colon_hex (join ":" (map format_02x bs)) = Some bs).
  { induction bs as [|b rest IH]; [reflexivity|].
    destruct rest as [|b' rest].
    - cbn [map join].
      rewrite <- (string_app_nil_r (format_02x b)).
      now rewrite parse_colon_hex_byte.
    - cbn [map]. cbn [map] in IH. rewrite join_cons.
      rewrite parse_colon_hex_byte. cbn [String.append Ascii.eqb].
      simpl Ascii.eqb. rewrite IH. reflexivity. }
  split; [exact Hparse|].
  intros bs bs' Heq.
  pose proof (Hparse bs) as H. rewrite Heq, Hparse in H. congruence.
Qed.

(** X11.  The [security] field is always one of the six labels, and it is
    ["Unknown"] exactly for the codes outside 0..4; the lookup raises for no
    code. *)
Theorem security_label_closed_set (code : Z) :
  In (map_get security_map code "Unknown") security_labels
  /\ (map_get security_map code "Unknown" = "Unknown" <-> ~ (0 <= code <= 4)).
Proof.
  rewrite security_map_label.
  destruct (Z_le_dec 0 code) as [H0|H0]; [destruct (Z_le_dec code 4) as [H4|H4]|].
  - assert (Hcases : code = 0 \/ code = 1 \/ code = 2 \/ code = 3 \/ code = 4)
      by lia.
    destruct Hcases as [->|[->|[->|[->| ->]]]]; simpl;
      (split; [tauto|split; [discriminate|lia]]).
  - rewrite security_label_unknown by lia. simpl. split; [tauto|].
    split; [lia|reflexivity].
  - rewrite security_label_unknown by lia. simpl. split; [tauto|].
    split; [lia|reflexivity].
Qed.

Section WifiOutcomes.
Context {world : Type} {network : NetworkWLAN world} {codec : Utf8Codec}.

(** Either every network of a scan formats, or one of them has an SSID that
    cannot be decoded. *)
Lemma scan_formats_or_not (networks : list scan_entry) :
  (exists records, Forall2 describes networks records)
  \/ (exists bad e, In bad networks /\ ssid_undecodable bad e).
Proof.
  induction networks as [|net nets IH]; [left; exists []; constructor|].
  destruct (ssid_reads_or_undecodable net) as [(s & Hs)|(e & He)].
  - destruct IH as [(records & IH)|(bad & e & Hin & Hbad)].
    + left. exists (network_record net s :: records).
      constructor; [exists s; auto|assumption].
    + right. exists bad, e. simpl. auto.
  - right. exists net, e. simpl. auto.
Qed.

End WifiOutcomes.

(** X12.  When the radio cannot be used (the constructor, [active(True)] or
    [scan()] raises [e]), the Wi-Fi probe returns the error record of [e],
    and the script writes the single line
    [__WIFI_SCAN__{"error": "<message>"}]. *)
Theorem wifi_driver_fault_reported
    (world : Type) (network : NetworkWLAN world) (codec : Utf8Codec)
    (w w1 : world) (e : exn) (text : string) :
  wifi_scan_call w = (Raise e, w1) ->
  scan_wifi_networks w = (Ret (error_record e), w1)
  /\ send_wifi_scan (mkConsole w text)
     = (Ret tt,
        mkConsole w1
          (text ++ "__WIFI_SCAN__{" ++ json_quote "error" ++ ": "
                ++ json_quote (str e) ++ "}" ++ String newline EmptyString)).
Proof.
  intros Hscan.
  assert (Hrun : scan_wifi_networks w = (Ret (error_record e), w1)).
  { now rewrite scan_wifi_networks_unfold, Hscan. }
  split; [exact Hrun|].
  unfold send_wifi_scan.
  rewrite (send_returns scan_wifi_networks "__WIFI_SCAN__"
             (mkConsole w text) (error_record e) w1 Hrun).
  cbn [stdout]. unfold marker_line, error_record. cbn [json_dumps map join].
  do 2 f_equal. rewrite !string_app_assoc. reflexivity.
Qed.

(** X12, scenario E on a board without a radio. *)
Lemma wifi_driver_fault_reported_witness :
  stdout (snd (send_wifi_scan (network := no_radio)
                 (codec := micropython_codec) (mkConsole 0%nat EmptyString)))
  = "__WIFI_SCAN__{" ++ json_quote "error" ++ ": "
      ++ json_quote "Wifi Unknown Error" ++ "}" ++ String newline EmptyString.
Proof.
  destruct (wifi_driver_fault_reported nat no_radio micropython_codec
              0%nat 1%nat (Exception "Wifi Unknown Error") EmptyString
              eq_refl) as [_ Hsend].
  rewrite Hsend. reflexivity.
Defined.

(** X13.  The Wi-Fi probe never raises, and its result is one of three: the
    error record of a driver fault; one record per scanned network, in scan
    order; or the error record of an SSID that cannot be decoded. *)
Theorem scan_wifi_networks_outcomes
    (world : Type) (network : NetworkWLAN world) (codec : Utf8Codec)
    (w : world) :
  (exists e w1,
      wifi_scan_call w = (Raise e, w1)
      /\ scan_wifi_networks w = (Ret (error_record e), w1))
  \/ (exists networks w1,
         wifi_scan_call w = (Ret networks, w1)
         /\ ((exists records,
                 Forall2 describes networks records
                 /\ scan_wifi_networks w = (Ret (VList records), w1))
             \/ (exists bad e,
                    In bad networks /\ ssid_undecodable bad e
                    /\ scan_wifi_networks w = (Ret (error_record e), w1)))).
Proof.
  rewrite scan_wifi_networks_unfold.
  destruct (wifi_scan_call w) as [[networks|e] w1] eqn:Hscan.
  - right. exists networks, w1. split; [reflexivity|].
    destruct (scan_formats_or_not networks)
      as [(records & Hrecords)|(bad & e & Hin & Hbad)].
    + left. exists records. split; [assumption|].
      now rewrite (wifi_loop_describes _ _ _ _ Hrecords).
    + right.
      destruct (first_undecodable networks bad e Hin Hbad)
        as (good & first & rest & e' & -> & Hgood & Hfirst).
      exists first, e'. split; [apply in_or_app; simpl; auto|].
      split; [assumption|].
      now rewrite (wifi_loop_undecodable _ _ _ _ _ _ Hgood Hfirst).
  - left. exists e, w1. auto.
Qed.

(* ================================================================== *)
(** * More on system_monitor.py *)
(* ================================================================== *)



(** X17.  The system script writes at most one line: its marker line when
    the probe returns, and nothing at all when the probe raises. *)
Theorem send_metrics_at_most_one_line
    (world : Type) (system : SystemInfo world) (c : console world) :
  (exists payload w,
      get_system_metrics (dev c) = (Ret payload, w)
      /\ send_metrics c
         = (Ret tt,
            mkConsole w (stdout c ++ marker_line "__MONITOR_DATA__" payload
                                  ++ String newline EmptyString))
      /\ has_newline (marker_line "__MONITOR_DATA__" payload) = false)
  \/ (exists e w,
         get_system_metrics (dev c) = (Raise e, w)
         /\ send_metrics c = (Raise e, mkConsole w (stdout c))).
Proof.
  destruct (get_system_metrics (dev c)) as [[payload|e] w] eqn:Hrun.
  - left. exists payload, w. split; [reflexivity|].
    now apply send_metrics_one_line.
  - right. exists e, w. split; [reflexivity|].
    now apply send_metrics_silent.
Qed.

Section SteadyClock.
Context {world : Type} {system : SystemInfo world}.
Variable now : world -> Z.
Hypothesis Hclock : steady_clock now.

(** The handler stamps its record with the clock as it stands after the
    fault. *)
Lemma error_record_stamp (e : exn) (w w' : world) (payload : value) :
  (timestamp <- time_time ;;
   ret (VDict [ ("error", VStr (str e)); ("timestamp", VInt timestamp) ])) w
  = (Ret payload, w') ->
  exists t, timestamp_of payload = Some (VInt t) /\ now w <= t <= now w'.
Proof.
  run_monad. pose proof (clock_time now Hclock w) as C.
  destruct (time_time w) as [[t|e'] w1] eqn:E; [|discriminate].
  intros [= <- <-]. exists t. split; [reflexivity|].
  rewrite (clock_shown now Hclock _ _ _ E). simpl in C. lia.
Qed.

(** Every payload the probe returns is stamped with a clock reading taken
    during the call. *)
Lemma payload_stamp (w w' : world) (payload : value) :
  get_system_metrics w = (Ret payload, w') ->
  exists t, timestamp_of payload = Some (VInt t) /\ now w <= t <= now w'.
Proof.
  rewrite get_system_metrics_unfold.
  unfold collect_metrics, add_temperature. run_monad.
  pose proof (clock_mem_free now Hclock w) as C1.
  destruct (gc_mem_free w) as [[free|e] w1] eqn:E1; simpl in C1.
  2:{ intros H. apply error_record_stamp in H.
      destruct H as (t & Ht & Hb). exists t. split; [assumption|lia]. }
  pose proof (clock_mem_alloc now Hclock w1) as C2.
  destruct (gc_mem_alloc w1) as [[allocated|e] w2] eqn:E2; simpl in C2.
  2:{ intros H. apply error_record_stamp in H.
      destruct H as (t & Ht & Hb). exists t. split; [assumption|lia]. }
  pose proof (clock_freq now Hclock w2) as C3.
  destruct (machine_freq w2) as [[freq|e] w3] eqn:E3; simpl in C3.
  2:{ intros H. apply error_record_stamp in H.
      destruct H as (t & Ht & Hb). exists t. split; [assumption|lia]. }
  pose proof (clock_time now Hclock w3) as C4.
  destruct (time_time w3) as [[timestamp|e] w4] eqn:E4; simpl in C4.
  2:{ intros H. apply error_record_stamp in H.
      destruct H as (t & Ht & Hb). exists t. split; [assumption|lia]. }
  pose proof (clock_shown now Hclock _ _ _ E4) as Hshown.
  pose proof (clock_temperature now Hclock w4) as C5.
  destruct machine_has_temperature.
  - destruct (machine_temperature w4) as [[temp|e] w5]; simpl in C5;
      intros [= <- <-]; exists timestamp; (split; [reflexivity|lia]).
  - intros [= <- <-]. exists timestamp. split; [reflexivity|lia].
Qed.

End SteadyClock.

(** X18.  On a device whose clock is never set back and whose [time.time()]
    shows that clock, the timestamps of two successive invocations of the
    system probe are non-decreasing, whether the payloads are metrics or
    error records. *)
Theorem system_timestamps_non_decreasing
    (world : Type) (system : SystemInfo world) (now : world -> Z)
    (w w1 w2 : world) (payload1 payload2 : value) (t1 t2 : Z) :
  steady_clock now ->
  get_system_metrics w = (Ret payload1, w1) ->
  get_system_metrics w1 = (Ret payload2, w2) ->
  timestamp_of payload1 = Some (VInt t1) ->
  timestamp_of payload2 = Some (VInt t2) ->
  t1 <= t2.
Proof.
  intros Hclock Hrun1 Hrun2 Ht1 Ht2.
  destruct (payload_stamp now Hclock _ _ _ Hrun1) as (t1' & Ht1' & Hb1).
  destruct (payload_stamp now Hclock _ _ _ Hrun2) as (t2' & Ht2' & Hb2).
  rewrite Ht1 in Ht1'. rewrite Ht2 in Ht2'.
  injection Ht1' as ->. injection Ht2' as ->. lia.
Qed.

Lemma board_freq_fault_steady :
  steady_clock (system := board_freq_fault) Z.of_nat.
Proof.
  constructor; try (intros w; simpl; lia).
  intros w t w' [= <- _]. reflexivity.
Qed.

(** X18, on the board whose clock frequency cannot be read: two successive
    error records are stamped 8 and 12. *)
Lemma system_timestamps_non_decreasing_witness :
  get_system_metrics (system := board_freq_fault) 5%nat
  = (Ret (VDict [ ("error", VStr "freq unavailable");
                  ("timestamp", VInt 8) ]), 9%nat)
  /\ get_system_metrics (system := board_freq_fault) 9%nat
     = (Ret (VDict [ ("error", VStr "freq unavailable");
                     ("timestamp", VInt 12) ]), 13%nat)
  /\ 8 <= 12.
Proof.
  split; [reflexivity|]. split; [reflexivity|].
  apply (system_timestamps_non_decreasing nat board_freq_fault Z.of_nat
           5%nat 9%nat 13%nat
           (VDict [ ("error", VStr "freq unavailable");
                    ("timestamp", VInt 8) ])
           (VDict [ ("error", VStr "freq unavailable");
                    ("timestamp", VInt 12) ])
           8 12 board_freq_fault_steady);
    reflexivity.
Defined.

(* ================================================================== *)
(** * boot.py: the MAC address text *)
(* ================================================================== *)

Lemma str_upper_app (a b : string) :
  str_upper (a ++ b) = str_upper a ++ str_upper b.
Proof.
  induction a as [|c a IH]; simpl; [reflexivity|now rewrite IH].
Qed.

Lemma str_upper_length (s : string) :
  String.length (str_upper s) = String.length s.
Proof.
  induction s as [|c s IH]; simpl; [reflexivity|now rewrite IH].
Qed.

Lemma format_02X_upper (b : byte) : format_02X b = str_upper (format_02x b).
Proof.
  destruct b; reflexivity.
Qed.

(** X19.  The MAC address text of boot.py is the upper-case form of the text
    the Wi-Fi probe renders for the same bytes as a BSSID, and has
    [3 n - 1] characters for [n] bytes (17 for a six-byte MAC). *)
Theorem mac_address_upper_bssid (mac_bytes : list byte) :
  mac_address mac_bytes = str_upper (join ":" (map format_02x mac_bytes))
  /\ String.length (mac_address mac_bytes)
     = (3 * List.length mac_bytes - 1)%nat.
Proof.
  assert (Hupper : mac_address mac_bytes
                   = str_upper (join ":" (map format_02x mac_bytes))).
  { unfold mac_address.
    induction mac_bytes as [|b rest IH]; [reflexivity|].
    destruct rest as [|b' rest]; [apply format_02X_upper|].
    cbn [map]. cbn [map] in IH. rewrite !join_cons, !str_upper_app.
    now rewrite IH, format_02X_upper. }
  split; [exact Hupper|].
  rewrite Hupper, str_upper_length. apply bssid_text_shape.
Qed.
